(** * RemoteAgent (moya/agents/remote_agent.py)

    A shallow embedding of the remote-agent client: construction,
    the synchronous send [handle_message], the streaming send
    [handle_message_stream] and the tool dispatcher [handle_tool_call],
    together with the call log [tool_call_logs] they share.

    Conventions.
    - A Python [str] is a [string]; a character is a code point below 256,
      which is the range the whitespace table of [py_isspace] covers.
    - Python objects reaching this code are JSON-shaped; they are [pyval].
    - A method that may raise runs in [M S A]: it takes the state, and gives
      back either a value or the exception raised, with the state as it
      was left.  A mutation made before a raise stays made, as in Python.
    - Only subclasses of [Exception] are modelled; this is what the
      handlers written [except Exception] catch.
    - A generator is modelled drained by its consumer: the chunks it
      yields, in order, and the state it leaves.
    - The transport ([requests]) and the JSON codec ([json]) are not part
      of the client; the methods take them as parameters.  [print] is taken
      not to fail. *)

From Stdlib Require Import String Ascii List ZArith Bool NArith Lia.
From Stdlib Require Import DecimalString DecimalPos DecimalZ.
Import ListNotations.
Local Open Scope string_scope.
Set Warnings "-register-all".

(** ** Python values *)

(** A float is read by this code in two ways only: its truth value, and its
    text under [json.dumps] or [str].  It is kept as those two readings. *)
Record pyfloat : Type := mk_pyfloat {
  float_nonzero : bool;
  float_repr : string
}.

Inductive pyval : Type :=
| PNone
| PBool (b : bool)
| PInt (n : Z)
| PFloat (f : pyfloat)
| PStr (s : string)
| PList (items : list pyval)
| PDict (entries : list (string * pyval)).

(** A dict keeps insertion order; lookup takes the first entry of a key. *)
Definition dict : Type := list (string * pyval).

Fixpoint dict_get (d : dict) (k : string) : option pyval :=
  match d with
  | [] => None
  | (k', v) :: rest => if (k' =? k)%string then Some v else dict_get rest k
  end.

Definition dict_contains (d : dict) (k : string) : bool :=
  match dict_get d k with Some _ => true | None => false end.

(** [d[k] = v]: an existing key keeps its place. *)
Fixpoint dict_set (d : dict) (k : string) (v : pyval) : dict :=
  match d with
  | [] => [(k, v)]
  | (k', v') :: rest =>
      if (k' =? k)%string then (k, v) :: rest else (k', v') :: dict_set rest k v
  end.

(** [{**d1, **d2}] *)
Definition dict_update (d1 d2 : dict) : dict :=
  fold_left (fun acc kv => dict_set acc (fst kv) (snd kv)) d2 d1.

Definition dict_keys (d : dict) : list string := map fst d.

Definition type_name (v : pyval) : string :=
  match v with
  | PNone => "NoneType"
  | PBool _ => "bool"
  | PInt _ => "int"
  | PFloat _ => "float"
  | PStr _ => "str"
  | PList _ => "list"
  | PDict _ => "dict"
  end.

(** [bool(v)], the test of [if v:]. *)
Definition truthy (v : pyval) : bool :=
  match v with
  | PNone => false
  | PBool b => b
  | PInt n => negb (n =? 0)%Z
  | PFloat f => float_nonzero f
  | PStr s => negb (s =? "")%string
  | PList l => match l with [] => false | _ :: _ => true end
  | PDict d => match d with [] => false | _ :: _ => true end
  end.

(** ** Strings *)

Fixpoint startswith (p s : string) : bool :=
  match p, s with
  | EmptyString, _ => true
  | String a p', String b s' => Ascii.eqb a b && startswith p' s'
  | String _ _, EmptyString => false
  end.

(** [s[n:]] *)
Fixpoint str_drop (n : nat) (s : string) : string :=
  match n, s with
  | O, _ => s
  | S n', String _ s' => str_drop n' s'
  | S _, EmptyString => EmptyString
  end.

(** [p in s] for two strings *)
Fixpoint str_contains (p s : string) : bool :=
  startswith p s ||
  match s with
  | EmptyString => false
  | String _ s' => str_contains p s'
  end.

Fixpoint drop_while {A : Type} (f : A -> bool) (l : list A) : list A :=
  match l with
  | [] => []
  | a :: l' => if f a then drop_while f l' else l
  end.

Definition char_in (chars : string) (a : ascii) : bool :=
  existsb (Ascii.eqb a) (list_ascii_of_string chars).

(** [s.rstrip(chars)] *)
Definition rstrip (chars : string) (s : string) : string :=
  string_of_list_ascii
    (rev (drop_while (char_in chars) (rev (list_ascii_of_string s)))).

(** [str.isspace] on one character, for code points below 256:
    TAB LF VT FF CR, FS GS RS US, SPACE, NEL and NBSP. *)
Definition py_isspace (a : ascii) : bool :=
  let n := N_of_ascii a in
  ((9 <=? n) && (n <=? 13) || (28 <=? n) && (n <=? 32)
   || (n =? 133) || (n =? 160))%N.

(** [s.strip()] *)
Definition strip (s : string) : string :=
  string_of_list_ascii
    (rev (drop_while py_isspace
            (rev (drop_while py_isspace (list_ascii_of_string s))))).

Definition endswith (p s : string) : bool :=
  startswith (string_of_list_ascii (rev (list_ascii_of_string p)))
             (string_of_list_ascii (rev (list_ascii_of_string s))).

Definition dquote : string := String (ascii_of_N 34) EmptyString.

(** [str(n)] for an int *)
Definition str_of_Z (n : Z) : string := NilZero.string_of_int (Z.to_int n).

(** The characters of a string, each as a string of length one. *)
Definition str_chars (s : string) : list string :=
  map (fun a => String a EmptyString) (list_ascii_of_string s).

(** ** Exceptions and the state-and-exception monad *)

(** [HTTPError] is the one class the handlers tell apart; it carries the
    status code of the response attached to it.  Every other exception is
    its class name and message. *)
Inductive exn : Type :=
| HTTPError (status_code : Z) (msg : string)
| PyException (cls : string) (msg : string).

(** [str(e)] *)
Definition str_exn (e : exn) : string :=
  match e with
  | HTTPError _ m => m
  | PyException _ m => m
  end.

Inductive outcome (A : Type) : Type :=
| Return (a : A)
| Raise (e : exn).
Arguments Return {A} a.
Arguments Raise {A} e.

Definition M (S A : Type) : Type := S -> outcome A * S.

Definition ret {S A : Type} (a : A) : M S A := fun s => (Return a, s).

Definition bind {S A B : Type} (m : M S A) (k : A -> M S B) : M S B :=
  fun s =>
    match m s with
    | (Return a, s') => k a s'
    | (Raise e, s') => (Raise e, s')
    end.

Definition lift {S A : Type} (o : outcome A) : M S A := fun s => (o, s).

Definition get_state {S : Type} : M S S := fun s => (Return s, s).

Definition modify {S : Type} (f : S -> S) : M S unit :=
  fun s => (Return tt, f s).

(** [try: m  except Exception as e: handler e] *)
Definition try_except {S A : Type} (m : M S A) (handler : exn -> M S A)
  : M S A :=
  fun s =>
    match m s with
    | (Return a, s') => (Return a, s')
    | (Raise e, s') => handler e s'
    end.

Declare Scope py_scope.
Delimit Scope py_scope with py.
Notation "x <- m ;; k" := (bind m (fun x => k))
  (at level 61, m at next level, right associativity) : py_scope.
Notation "m ;;; k" := (bind m (fun _ => k))
  (at level 61, right associativity) : py_scope.
Local Open Scope py_scope.

(** ** Operations of Python objects used by the client *)

Definition type_error {A : Type} (msg : string) : outcome A :=
  Raise (PyException "TypeError" msg).

Definition attribute_error {A : Type} (v : pyval) (attr : string)
  : outcome A :=
  Raise (PyException "AttributeError"
           ("'" ++ type_name v ++ "' object has no attribute '" ++ attr ++ "'")).

(** [v.get(key, default)]: only a dict has the method. *)
Definition py_get (v : pyval) (key : string) (default : pyval)
  : outcome pyval :=
  match v with
  | PDict d =>
      Return (match dict_get d key with Some x => x | None => default end)
  | _ => attribute_error v "get"
  end.

(** [iter(v)] run to the end, as [list.extend(v)] does before it appends. *)
Definition py_iter (v : pyval) : outcome (list pyval) :=
  match v with
  | PList l => Return l
  | PStr s => Return (map PStr (str_chars s))
  | PDict d => Return (map PStr (dict_keys d))
  | _ => type_error ("'" ++ type_name v ++ "' object is not iterable")
  end.

(** [key in v] for a string [key] *)
Definition py_contains (key : string) (v : pyval) : outcome bool :=
  match v with
  | PDict d => Return (dict_contains d key)
  | PList l =>
      Return (existsb (fun x => match x with
                                | PStr s => (s =? key)%string
                                | _ => false
                                end) l)
  | PStr s => Return (str_contains key s)
  | _ => type_error ("argument of type '" ++ type_name v ++ "' is not iterable")
  end.

(** [v[key]] for a string [key] *)
Definition py_getitem (v : pyval) (key : string) : outcome pyval :=
  match v with
  | PDict d =>
      match dict_get d key with
      | Some x => Return x
      | None => Raise (PyException "KeyError" ("'" ++ key ++ "'"))
      end
  | PList _ => type_error "list indices must be integers or slices, not str"
  | PStr _ => type_error "string indices must be integers, not 'str'"
  | _ => type_error ("'" ++ type_name v ++ "' object is not subscriptable")
  end.

(** [text + v] for a string [text]: [current_text += v] *)
Definition str_add (text : string) (v : pyval) : outcome string :=
  match v with
  | PStr s => Return (text ++ s)
  | _ => type_error ("can only concatenate str (not " ++ dquote ++ type_name v
                     ++ dquote ++ ") to str")
  end.

(** ** Collaborators: tool registry, configuration, transport *)

(** The registry and its tools belong to the caller.  A tool's function gets
    the named arguments and returns a value or raises.  [function_str] is
    how CPython prints the function in the messages of its errors: the
    module and qualified name, followed by [()]. *)
Record Tool : Type := mk_Tool {
  tool_name : string;
  tool_description : string;
  function : dict -> outcome pyval;
  function_str : string
}.

Record ToolRegistry : Type := mk_ToolRegistry {
  get_tool : pyval -> option Tool
}.

Record RemoteAgentConfig : Type := mk_RemoteAgentConfig {
  config_agent_name : string;
  config_system_prompt : string;
  config_tool_registry : option ToolRegistry;
  config_base_url : option string;
  config_verify_ssl : bool;
  config_auth_token : option string
}.

(** The part of [requests.Session] the client sets; the headers a new
    session has of its own are left out. *)
Record Session : Type := mk_Session {
  headers : list (string * string);
  verify : bool
}.

Record RemoteAgent : Type := mk_RemoteAgent {
  agent_name : string;
  tool_registry : option ToolRegistry;
  base_url : string;
  system_prompt : string;
  session : Session;
  tool_call_logs : list pyval
}.

Definition set_tool_call_logs (logs : list pyval) (self : RemoteAgent)
  : RemoteAgent :=
  {| agent_name := agent_name self;
     tool_registry := tool_registry self;
     base_url := base_url self;
     system_prompt := system_prompt self;
     session := session self;
     tool_call_logs := logs |}.

(** What [response.iter_lines(decode_unicode=True)] delivers: lines, as
    strings, then the end of the body or an exception of the transport. *)
Inductive line_iter : Type :=
| Eof
| Line (line : string) (rest : line_iter)
| Broken (e : exn).

Record Request : Type := mk_Request {
  req_url : string;
  req_json : pyval;
  req_stream : bool;
  req_headers : list (string * string);
  req_verify : bool
}.

Record Response : Type := mk_Response {
  status_code : Z;
  reason : string;
  url : string;
  json : outcome pyval;
  iter_lines : line_iter
}.

(** [Response.raise_for_status] of requests: a status in 400..599 raises
    [HTTPError], with its message and the response attached. *)
Definition raise_for_status (r : Response) : outcome unit :=
  let code := status_code r in
  let http_error_msg :=
    if ((400 <=? code) && (code <? 500))%Z then
      str_of_Z code ++ " Client Error: " ++ reason r ++ " for url: " ++ url r
    else if ((500 <=? code) && (code <? 600))%Z then
      str_of_Z code ++ " Server Error: " ++ reason r ++ " for url: " ++ url r
    else EmptyString in
  if negb (http_error_msg =? EmptyString)%string
  then Raise (HTTPError code http_error_msg)
  else Return tt.

(** ** Construction *)

Definition str_truthy (s : option string) : bool :=
  match s with
  | None => false
  | Some s => negb (s =? EmptyString)%string
  end.

(** [RemoteAgent.__init__].  [Agent.__init__] of the base class is taken to
    store the name and the registry of the configuration, which are the
    attributes [handle_tool_call] reads. *)
Definition RemoteAgent_init (config : RemoteAgentConfig)
  : outcome RemoteAgent :=
  if negb (str_truthy (config_base_url config)) then
    Raise (PyException "ValueError" "RemoteAgent base URL is required.")
  else
    match config_base_url config with
    | None =>
        Raise (PyException "AttributeError"
                 "'NoneType' object has no attribute 'rstrip'")
    | Some b =>
        Return
          {| agent_name := config_agent_name config;
             tool_registry := config_tool_registry config;
             base_url := rstrip "/" b;
             system_prompt := config_system_prompt config;
             session :=
               {| headers :=
                    if str_truthy (config_auth_token config) then
                      match config_auth_token config with
                      | Some token => [("Authorization", "Bearer " ++ token)]
                      | None => []
                      end
                    else [];
                  verify := config_verify_ssl config |};
             tool_call_logs := [] |}
    end.

(** ** The methods, over a given network and JSON codec *)

Section Client.

(** The remote side: what a request gets, a response or an exception. *)
Variable network : Request -> outcome Response.

(** [json.loads] on a string: [None] is [json.JSONDecodeError]. *)
Variable json_loads : string -> option pyval.

(** [json.dumps] *)
Variable json_dumps : pyval -> string.

(** [str(v)] for a value that is not a string *)
Variable str_other : pyval -> string.

(** [f"{v}"] *)
Definition format (v : pyval) : string :=
  match v with
  | PStr s => s
  | _ => str_other v
  end.

(** [session.post(url, json=data, stream=..., headers=...)] *)
Definition session_post (s : Session) (endpoint : string) (data : pyval)
    (stream : bool) (extra : list (string * string)) : outcome Response :=
  network {| req_url := endpoint;
             req_json := data;
             req_stream := stream;
             req_headers := headers s ++ extra;
             req_verify := verify s |}.

(** The payload of both sends:
    [{"message": message, "thread_id": kwargs.get("thread_id"), **kwargs}] *)
Definition payload (message : string) (kwargs : dict) : pyval :=
  PDict (dict_update
           [("message", PStr message);
            ("thread_id",
             match dict_get kwargs "thread_id" with
             | Some t => t
             | None => PNone
             end)]
           kwargs).

(** [self.tool_call_logs.extend(v)] *)
Definition extend_logs (v : pyval) : M RemoteAgent unit :=
  items <- lift (py_iter v) ;;
  modify (fun self => set_tool_call_logs (tool_call_logs self ++ items) self).

Definition error_text (e : exn) : string :=
  "[RemoteAgent error: " ++ str_exn e ++ "]".

(** *** handle_message *)

(** The body of the [try]. *)
Definition handle_message_try (message : string) (kwargs : dict)
  : M RemoteAgent pyval :=
  self <- get_state ;;
  let endpoint := base_url self ++ "/chat" in
  let data := payload message kwargs in
  response <- lift (session_post (session self) endpoint data false []) ;;
  lift (raise_for_status response) ;;;
  json_response <- lift (json response) ;;
  res_text <- lift (py_get json_response "response" (PStr EmptyString)) ;;
  tool_calls <- lift (py_get json_response "tool_calls" (PList [])) ;;
  (if truthy tool_calls then extend_logs tool_calls else ret tt) ;;;
  ret res_text.

Definition handle_message (message : string) (kwargs : dict)
  : M RemoteAgent pyval :=
  try_except (handle_message_try message kwargs)
    (fun e =>
       match e with
       | HTTPError code _ =>
           if (code =? 401)%Z
           then ret (PStr "[RemoteAgent error: Authentication failed]")
           else ret (PStr (error_text e))
       | _ => ret (PStr (error_text e))
       end).

(** *** handle_message_stream *)

(** A generator run to its end: the agent, the chunks yielded so far and
    the lines printed so far. *)
Record Gen : Type := mk_Gen {
  gen_self : RemoteAgent;
  yielded : list string;
  printed : list string
}.

Definition yield (chunk : string) : M Gen unit :=
  modify (fun g => {| gen_self := gen_self g;
                      yielded := yielded g ++ [chunk];
                      printed := printed g |}).

Definition print (text : string) : M Gen unit :=
  modify (fun g => {| gen_self := gen_self g;
                      yielded := yielded g;
                      printed := printed g ++ [text] |}).

(** A method of the agent run inside the generator. *)
Definition on_self {A : Type} (m : M RemoteAgent A) : M Gen A :=
  fun g =>
    match m (gen_self g) with
    | (o, self') => (o, {| gen_self := self';
                           yielded := yielded g;
                           printed := printed g |})
    end.

(** The inner [try] on one payload: the new value of [current_text].
    [json.loads] alone raises [JSONDecodeError], and does so before
    anything is changed. *)
Definition classify (content current_text : string) : M Gen string :=
  match json_loads content with
  | Some data_chunk =>
      has_tool_calls <- lift (py_contains "tool_calls" data_chunk) ;;
      if has_tool_calls : bool then
        tool_calls <- lift (py_getitem data_chunk "tool_calls") ;;
        on_self (extend_logs tool_calls) ;;;
        ret current_text
      else
        delta <- lift (py_get data_chunk "content" (PStr EmptyString)) ;;
        lift (str_add current_text delta)
  | None => ret (current_text ++ content)
  end.

(** The [for] loop over the lines; it returns [current_text] as the loop
    leaves it. *)
Fixpoint stream_loop (lines : line_iter) (current_text : string)
  : M Gen string :=
  match lines with
  | Eof => ret current_text
  | Broken e => lift (Raise e)
  | Line line rest =>
      if negb (line =? EmptyString)%string && startswith "data:" line then
        let content := strip (str_drop 5 line) in
        if negb (content =? EmptyString)%string
           && negb (content =? "done")%string
        then
          current_text <- classify content current_text ;;
          yield (current_text ++ " ") ;;;
          stream_loop rest EmptyString
        else stream_loop rest current_text
      else stream_loop rest current_text
  end.

(** The body of the [try]. *)
Definition handle_message_stream_try (message : string) (kwargs : dict)
  : M Gen unit :=
  g <- get_state ;;
  let self := gen_self g in
  let endpoint := base_url self ++ "/chat/stream" in
  let data := payload message kwargs in
  response <- lift (session_post (session self) endpoint data true
                      [("Accept", "text/event-stream")]) ;;
  lift (raise_for_status response) ;;;
  on_self (modify (set_tool_call_logs [])) ;;;
  current_text <- stream_loop (iter_lines response) EmptyString ;;
  if negb (strip current_text =? EmptyString)%string
  then yield current_text
  else ret tt.

Definition handle_message_stream (message : string) (kwargs : dict)
  : M Gen unit :=
  try_except (handle_message_stream_try message kwargs)
    (fun e =>
       let error_message := error_text e in
       print error_message ;;;
       yield error_message).

(** The generator started on an agent and drained. *)
Definition run_stream (self : RemoteAgent) (message : string)
    (kwargs : dict) : outcome unit * Gen :=
  handle_message_stream message kwargs
    {| gen_self := self; yielded := []; printed := [] |}.

(** *** handle_tool_call *)

(** [json.loads(v)]: a value that is not a string is a [TypeError]. *)
Definition loads_value (v : pyval) : outcome (option pyval) :=
  match v with
  | PStr s => Return (json_loads s)
  | _ => type_error ("the JSON object must be str, bytes or bytearray, not "
                     ++ type_name v)
  end.

(** A call of the function printed as [printed], with [args] unpacked as
    named arguments: it must be a mapping. *)
Definition call_with (printed : string) (f : dict -> outcome pyval)
    (args : pyval) : outcome pyval :=
  match args with
  | PDict d => f d
  | _ => type_error (printed ++ " argument after ** must be a mapping, not "
                     ++ type_name args)
  end.

Definition handle_tool_call (tool_call : dict) : M RemoteAgent pyval :=
  self <- get_state ;;
  let function_data :=
    match dict_get tool_call "function" with
    | Some fd => fd
    | None => PDict []
    end in
  name <- lift (py_get function_data "name" PNone) ;;
  arguments <- lift (py_get function_data "arguments" (PStr "{}")) ;;
  parsed <- lift (loads_value arguments) ;;
  let args := match parsed with Some a => a | None => PDict [] end in
  let tool :=
    match tool_registry self with
    | Some registry => get_tool registry name
    | None => None
    end in
  let call_info :=
    [("Tool_call_source", PStr (agent_name self));
     ("Tool_call_Destination", name);
     ("Tool_call_Arguments", PStr (json_dumps args));
     ("Tool_call_Response", PStr EmptyString)] in
  result <-
    match tool with
    | Some t => lift (call_with (function_str t) (function t) args)
    | None => ret (PStr ("[Tool '" ++ format name ++ "' not found]"))
    end ;;
  let call_info := dict_set call_info "Tool_call_Response" result in
  modify (fun self =>
            set_tool_call_logs (tool_call_logs self ++ [PDict call_info])
                               self) ;;;
  ret result.

End Client.

(** ** A reference codec, for running the methods on concrete texts

    [Codec.loads] reads the JSON texts made of objects, arrays, strings with
    the two-character escapes, integers, [true], [false] and [null]; it
    rejects every other text, among them those with a fraction, an exponent
    or a [\u] escape, which [json.loads] would read.  [Codec.dumps] and
    [Codec.str] write values as [json.dumps] and [str] do. *)
Module Codec.

Local Open Scope char_scope.

Definition is_ws (a : ascii) : bool :=
  match a with
  | " " | "009" | "010" | "013" => true
  | _ => false
  end.

Definition digit_of (a : ascii) : option Z :=
  let n := Z.of_N (N_of_ascii a) in
  if ((48 <=? n) && (n <=? 57))%Z then Some (n - 48)%Z else None.

Definition is_dquote (a : ascii) : bool := (N_of_ascii a =? 34)%N.

(** The characters of a string literal, after its opening quote. *)
Fixpoint read_string (s : list ascii) (acc : list ascii)
  : option (string * list ascii) :=
  match s with
  | [] => None
  | a :: rest =>
      if is_dquote a then Some (string_of_list_ascii (rev acc), rest)
      else if (N_of_ascii a <? 32)%N then None
      else
        match a, rest with
        | "\", e :: rest' =>
            let unescaped :=
              if is_dquote e then Some e
              else match e with
                   | "\" => Some "\"
                   | "/" => Some "/"
                   | "b" => Some "008"
                   | "f" => Some "012"
                   | "n" => Some "010"
                   | "r" => Some "013"
                   | "t" => Some "009"
                   | _ => None
                   end in
            match unescaped with
            | Some c => read_string rest' (c :: acc)
            | None => None
            end
        | "\", [] => None
        | _, _ => read_string rest (a :: acc)
        end
  end.

Fixpoint read_digits (s : list ascii) (acc : Z) : Z * list ascii :=
  match s with
  | a :: rest =>
      match digit_of a with
      | Some d => read_digits rest (10 * acc + d)%Z
      | None => (acc, s)
      end
  | [] => (acc, s)
  end.

(** An integer without sign: no leading zero, and no fraction or exponent
    after it. *)
Definition read_nat (s : list ascii) : option (Z * list ascii) :=
  match s with
  | a :: rest =>
      match digit_of a with
      | Some d =>
          let '(n, rest') :=
            if (d =? 0)%Z then (0%Z, rest) else read_digits rest d in
          match rest' with
          | "." :: _ | "e" :: _ | "E" :: _ => None
          | b :: _ => match digit_of b with Some _ => None | None => Some (n, rest') end
          | [] => Some (n, rest')
          end
      | None => None
      end
  | [] => None
  end.

Fixpoint read_value (fuel : nat) (s : list ascii)
  : option (pyval * list ascii) :=
  match fuel with
  | O => None
  | S fuel' =>
      match drop_while is_ws s with
      | "{" :: rest =>
          match drop_while is_ws rest with
          | "}" :: rest' => Some (PDict [], rest')
          | _ => read_members fuel' rest []
          end
      | "[" :: rest =>
          match drop_while is_ws rest with
          | "]" :: rest' => Some (PList [], rest')
          | _ => read_elements fuel' rest []
          end
      | "t" :: "r" :: "u" :: "e" :: rest => Some (PBool true, rest)
      | "f" :: "a" :: "l" :: "s" :: "e" :: rest => Some (PBool false, rest)
      | "n" :: "u" :: "l" :: "l" :: rest => Some (PNone, rest)
      | "-" :: rest =>
          match read_nat rest with
          | Some (n, rest') => Some (PInt (- n), rest')
          | None => None
          end
      | a :: rest =>
          if is_dquote a then
            match read_string rest [] with
            | Some (str, rest') => Some (PStr str, rest')
            | None => None
            end
          else
            match read_nat (a :: rest) with
            | Some (n, rest') => Some (PInt n, rest')
            | None => None
            end
      | [] => None
      end
  end

with read_members (fuel : nat) (s : list ascii) (acc : dict)
  : option (pyval * list ascii) :=
  match fuel with
  | O => None
  | S fuel' =>
      match drop_while is_ws s with
      | a :: rest =>
          if is_dquote a then
            match read_string rest [] with
            | Some (key, rest1) =>
                match drop_while is_ws rest1 with
                | ":" :: rest2 =>
                    match read_value fuel' rest2 with
                    | Some (v, rest3) =>
                        let acc' := dict_set acc key v in
                        match drop_while is_ws rest3 with
                        | "," :: rest4 => read_members fuel' rest4 acc'
                        | "}" :: rest4 => Some (PDict acc', rest4)
                        | _ => None
                        end
                    | None => None
                    end
                | _ => None
                end
            | None => None
            end
          else None
      | [] => None
      end
  end

with read_elements (fuel : nat) (s : list ascii) (acc : list pyval)
  : option (pyval * list ascii) :=
  match fuel with
  | O => None
  | S fuel' =>
      match read_value fuel' s with
      | Some (v, rest) =>
          match drop_while is_ws rest with
          | "," :: rest' => read_elements fuel' rest' (acc ++ [v])
          | "]" :: rest' => Some (PList (acc ++ [v]), rest')
          | _ => None
          end
      | None => None
      end
  end.

Definition loads (text : string) : option pyval :=
  let s := list_ascii_of_string text in
  match read_value (2 * List.length s + 2) s with
  | Some (v, rest) =>
      match drop_while is_ws rest with
      | [] => Some v
      | _ :: _ => None
      end
  | None => None
  end.

Local Open Scope string_scope.

Definition hex_digit (n : N) : ascii :=
  if (n <? 10)%N then ascii_of_N (48 + n) else ascii_of_N (87 + n).

Definition hex2 (n : N) : string :=
  String (hex_digit (n / 16)) (String (hex_digit (n mod 16)) EmptyString).

Definition backslash : string := String "\"%char EmptyString.

Fixpoint join (sep : string) (parts : list string) : string :=
  match parts with
  | [] => EmptyString
  | [p] => p
  | p :: rest => p ++ sep ++ join sep rest
  end.

Definition concat_map (f : ascii -> string) (s : string) : string :=
  fold_right (fun a acc => f a ++ acc) EmptyString (list_ascii_of_string s).

(** One character inside a string literal of [json.dumps]
    ([ensure_ascii] is on). *)
Definition json_escape (a : ascii) : string :=
  let n := N_of_ascii a in
  if (n =? 34)%N then backslash ++ dquote
  else if (n =? 92)%N then backslash ++ backslash
  else if (n =? 10)%N then backslash ++ "n"
  else if (n =? 13)%N then backslash ++ "r"
  else if (n =? 9)%N then backslash ++ "t"
  else if (n =? 8)%N then backslash ++ "b"
  else if (n =? 12)%N then backslash ++ "f"
  else if ((n <? 32) || (126 <? n))%N then backslash ++ "u00" ++ hex2 n
  else String a EmptyString.

Definition json_string (s : string) : string :=
  dquote ++ concat_map json_escape s ++ dquote.

Definition json_float (f : pyfloat) : string :=
  if (float_repr f =? "nan")%string then "NaN"
  else if (float_repr f =? "inf")%string then "Infinity"
  else if (float_repr f =? "-inf")%string then "-Infinity"
  else float_repr f.

(** [json.dumps(v)] with its default separators *)
Fixpoint dumps (v : pyval) : string :=
  match v with
  | PNone => "null"
  | PBool true => "true"
  | PBool false => "false"
  | PInt n => str_of_Z n
  | PFloat f => json_float f
  | PStr s => json_string s
  | PList items => "[" ++ join ", " (map dumps items) ++ "]"
  | PDict entries =>
      "{" ++ join ", "
               ((fix members (d : list (string * pyval)) : list string :=
                   match d with
                   | [] => []
                   | (k, x) :: rest =>
                       (json_string k ++ ": " ++ dumps x) :: members rest
                   end) entries)
          ++ "}"
  end.

(** One character inside [repr] of a string quoted with [quote]. *)
Definition repr_escape (quote : ascii) (a : ascii) : string :=
  let n := N_of_ascii a in
  if (Ascii.eqb a quote || (n =? 92)%N)%bool then backslash ++ String a EmptyString
  else if (n =? 9)%N then backslash ++ "t"
  else if (n =? 10)%N then backslash ++ "n"
  else if (n =? 13)%N then backslash ++ "r"
  else if ((n <? 32) || ((127 <=? n) && (n <=? 160)) || (n =? 173))%N
  then backslash ++ "x" ++ hex2 n
  else String a EmptyString.

Definition repr_string (s : string) : string :=
  let quote :=
    if (str_contains "'" s && negb (str_contains dquote s))%bool
    then ascii_of_N 34 else "'"%char in
  String quote (concat_map (repr_escape quote) s ++ String quote EmptyString).

(** [repr(v)] *)
Fixpoint repr (v : pyval) : string :=
  match v with
  | PNone => "None"
  | PBool true => "True"
  | PBool false => "False"
  | PInt n => str_of_Z n
  | PFloat f => float_repr f
  | PStr s => repr_string s
  | PList items => "[" ++ join ", " (map repr items) ++ "]"
  | PDict entries =>
      "{" ++ join ", "
               ((fix members (d : list (string * pyval)) : list string :=
                   match d with
                   | [] => []
                   | (k, x) :: rest =>
                       (repr_string k ++ ": " ++ repr x) :: members rest
                   end) entries)
          ++ "}"
  end.

(** [str(v)]: a string is itself, every other value is its [repr]. *)
Definition str (v : pyval) : string :=
  match v with
  | PStr s => s
  | _ => repr v
  end.

End Codec.

(** ** Concrete agents, responses and texts *)
Module Examples.

(** JSON texts below are written with an apostrophe where the text has a
    double quote. *)
Definition jq (text : string) : string :=
  string_of_list_ascii
    (map (fun a => if Ascii.eqb a "'"%char then ascii_of_N 34 else a)
       (list_ascii_of_string text)).

Definition joke_config : RemoteAgentConfig :=
  {| config_agent_name := "joke_agent";
     config_system_prompt := "You are a helpful AI assistant.";
     config_tool_registry := None;
     config_base_url := Some "http://localhost:8000";
     config_verify_ssl := true;
     config_auth_token := Some "your-secret-token-here" |}.

Definition with_base_url (b : option string) : RemoteAgentConfig :=
  {| config_agent_name := config_agent_name joke_config;
     config_system_prompt := config_system_prompt joke_config;
     config_tool_registry := config_tool_registry joke_config;
     config_base_url := b;
     config_verify_ssl := config_verify_ssl joke_config;
     config_auth_token := config_auth_token joke_config |}.

(** The agent [RemoteAgent(joke_config)] builds. *)
Definition joke_agent : RemoteAgent :=
  {| agent_name := "joke_agent";
     tool_registry := None;
     base_url := "http://localhost:8000";
     system_prompt := "You are a helpful AI assistant.";
     session := {| headers := [("Authorization",
                                "Bearer your-secret-token-here")];
                   verify := true |};
     tool_call_logs := [] |}.

(** A network that answers every request with the same response. *)
Definition answers (r : Response) : Request -> outcome Response :=
  fun _ => Return r.

(** A network that refuses every request. *)
Definition refuses (e : exn) : Request -> outcome Response :=
  fun _ => Raise e.

(** A network that fails with the URL it was asked for. *)
Definition echo_url : Request -> outcome Response :=
  fun req => Raise (PyException "ConnectionError" (req_url req)).

Definition response_of (code : Z) (why : string) (body : outcome pyval)
    (lines : line_iter) : Response :=
  {| status_code := code;
     reason := why;
     url := "http://localhost:8000/chat";
     json := body;
     iter_lines := lines |}.

(** [response.json()] on a body with the given text *)
Definition body (text : string) : outcome pyval :=
  match Codec.loads text with
  | Some v => Return v
  | None =>
      Raise (PyException "JSONDecodeError"
               "Expecting value: line 1 column 1 (char 0)")
  end.

(** The descriptor [{"function": {"name": name, "arguments": text}}] *)
Definition descriptor (name text : string) : dict :=
  [("function", PDict [("name", PStr name); ("arguments", PStr text)])].

(** A tool that adds its arguments [a] and [b]. *)
Definition add_tool : Tool :=
  {| tool_name := "Add";
     tool_description := "adds two integers";
     function := fun args =>
       match dict_get args "a", dict_get args "b" with
       | Some (PInt a), Some (PInt b) => Return (PInt (a + b))
       | _, _ => Raise (PyException "TypeError" "Add needs integers a and b")
       end;
     function_str := "tools.calculator.add()" |}.

(** A tool whose function raises whatever it is given. *)
Definition failing_tool : Tool :=
  {| tool_name := "Explode";
     tool_description := "always fails";
     function := fun _ => Raise (PyException "RuntimeError" "boom");
     function_str := "tools.calculator.explode()" |}.

Definition registry : ToolRegistry :=
  {| get_tool := fun name =>
       match name with
       | PStr "Add" => Some add_tool
       | PStr "Explode" => Some failing_tool
       | _ => None
       end |}.

(** [joke_agent] with the registry above. *)
Definition tool_agent : RemoteAgent :=
  {| agent_name := "joke_agent";
     tool_registry := Some registry;
     base_url := "http://localhost:8000";
     system_prompt := "You are a helpful AI assistant.";
     session := session joke_agent;
     tool_call_logs := [] |}.

Fixpoint lines_of (ls : list string) : line_iter :=
  match ls with
  | [] => Eof
  | l :: rest => Line l (lines_of rest)
  end.

(** An opened stream that delivers the given lines and ends. *)
Definition stream_of (ls : list string) : Response :=
  response_of 200 "OK" (body "") (lines_of ls).

(** The tool-call fragment of the specification. *)
Definition call_line : string := jq "data: {'tool_calls':[{'id':'1'}]}".

(** Two content fragments. *)
Definition hello_lines : list string :=
  [jq "data: {'content': 'Hello'}"; jq "data: {'content': 'world'}"].

(** Two content fragments, a blank line between them and the end token
    after them. *)
Definition joke_lines : list string :=
  [jq "data: {'content': 'Why did'}";
   EmptyString;
   jq "data:{'content': ' the chicken'}";
   "data: done"].

(** A content fragment followed by a fragment with two tool calls. *)
Definition two_calls_lines : list string :=
  [jq "data: {'content': 'Hello'}";
   jq "data: {'tool_calls':[{'id':'1'},{'id':'2'}]}"].

(** A stream that delivers one content fragment and then breaks. *)
Definition broken_stream : Response :=
  response_of 200 "OK" (body "")
    (Line (jq "data: {'content': 'Why did'}")
       (Broken (PyException "ChunkedEncodingError"
                  "Connection broken: IncompleteRead"))).

(** A reply to [/chat] that declares one tool call. *)
Definition store_reply : Response :=
  response_of 200 "OK"
    (body (jq "{'response': 'Hi', 'tool_calls': [{'function': {'name': 'Store', 'arguments': '{}'}}]}"))
    Eof.

End Examples.

(** ** Vocabulary of the statements *)

(** [k] path separators *)
Definition slashes (k : nat) : string :=
  string_of_list_ascii (repeat "/"%char k).

(** The request [handle_message] hands to the session. *)
Definition chat_request (self : RemoteAgent) (message : string)
    (kwargs : dict) : Request :=
  {| req_url := base_url self ++ "/chat";
     req_json := payload message kwargs;
     req_stream := false;
     req_headers := (headers (session self) ++ [])%list;
     req_verify := verify (session self) |}.

(** The request [handle_message_stream] hands to the session. *)
Definition stream_request (self : RemoteAgent) (message : string)
    (kwargs : dict) : Request :=
  {| req_url := base_url self ++ "/chat/stream";
     req_json := payload message kwargs;
     req_stream := true;
     req_headers := (headers (session self) ++ [("Accept", "text/event-stream")])%list;
     req_verify := verify (session self) |}.

Definition authentication_failed : string :=
  "[RemoteAgent error: Authentication failed]".

(** The text [handle_message] returns for an exception of its [try]. *)
Definition sentinel (e : exn) : string :=
  match e with
  | HTTPError code _ =>
      if (code =? 401)%Z then authentication_failed else error_text e
  | PyException _ _ => error_text e
  end.

(** The field [Tool_call_source] of a log entry, when it has one. *)
Definition record_source (entry : pyval) : option pyval :=
  match entry with
  | PDict d => dict_get d "Tool_call_source"
  | _ => None
  end.

(** The field [Tool_call_Destination] of a log entry, when it has one. *)
Definition record_destination (entry : pyval) : option pyval :=
  match entry with
  | PDict d => dict_get d "Tool_call_Destination"
  | _ => None
  end.

(** The field [Tool_call_Response] of a log entry, when it has one. *)
Definition record_response (entry : pyval) : option pyval :=
  match entry with
  | PDict d => dict_get d "Tool_call_Response"
  | _ => None
  end.

(** [chunk[:-1]]: a chunk without the join space the loop put at its end *)
Fixpoint remove_join_space (chunk : string) : string :=
  match chunk with
  | EmptyString => EmptyString
  | String _ EmptyString => EmptyString
  | String a rest => String a (remove_join_space rest)
  end.

(** The payload of a line the loop does not pass over: the text after the
    [data:] marker, stripped, when it is neither empty nor [done]. *)
Definition payload_of (line : string) : option string :=
  if negb (line =? EmptyString)%string && startswith "data:" line then
    let content := strip (str_drop 5 line) in
    if negb (content =? EmptyString)%string && negb (content =? "done")%string
    then Some content
    else None
  else None.

(** What a line is to the streaming client. *)
Inductive fragment : Type :=
| Ignored                            (* not a payload line *)
| ToolCalls (entries : list pyval)   (* an object with a [tool_calls] list *)
| Content (delta : string)           (* an object without [tool_calls] *)
| Raw (text : string)                (* a payload that is not JSON *)
| Unexpected.                        (* JSON of any other shape *)

Definition fragment_of (json_loads : string -> option pyval) (line : string)
  : fragment :=
  match payload_of line with
  | None => Ignored
  | Some content =>
      match json_loads content with
      | None => Raw content
      | Some (PDict d) =>
          match dict_get d "tool_calls" with
          | Some (PList entries) => ToolCalls entries
          | Some _ => Unexpected
          | None =>
              match dict_get d "content" with
              | Some (PStr delta) => Content delta
              | Some _ => Unexpected
              | None => Content EmptyString
              end
          end
      | Some _ => Unexpected
      end
  end.

(** A stream of content fragments and lines passed over, with the deltas of
    its fragments in order. *)
Inductive content_stream (json_loads : string -> option pyval)
  : line_iter -> list string -> Prop :=
| content_eof : content_stream json_loads Eof []
| content_ignored line rest deltas :
    fragment_of json_loads line = Ignored ->
    content_stream json_loads rest deltas ->
    content_stream json_loads (Line line rest) deltas
| content_delta line rest delta deltas :
    fragment_of json_loads line = Content delta ->
    content_stream json_loads rest deltas ->
    content_stream json_loads (Line line rest) (delta :: deltas).

(** A stream of expected fragments, running to the end of the body or to an
    exception of the transport: the chunks it makes the loop yield, the
    entries it makes the loop log, and the exception it ends with. *)
Inductive stream_trace (json_loads : string -> option pyval)
  : line_iter -> list string -> list pyval -> option exn -> Prop :=
| trace_eof : stream_trace json_loads Eof [] [] None
| trace_broken e : stream_trace json_loads (Broken e) [] [] (Some e)
| trace_ignored line rest chunks entries ending :
    fragment_of json_loads line = Ignored ->
    stream_trace json_loads rest chunks entries ending ->
    stream_trace json_loads (Line line rest) chunks entries ending
| trace_tool_calls line rest items chunks entries ending :
    fragment_of json_loads line = ToolCalls items ->
    stream_trace json_loads rest chunks entries ending ->
    stream_trace json_loads (Line line rest)
      (" " :: chunks) (items ++ entries) ending
| trace_content line rest delta chunks entries ending :
    fragment_of json_loads line = Content delta ->
    stream_trace json_loads rest chunks entries ending ->
    stream_trace json_loads (Line line rest)
      ((delta ++ " ") :: chunks) entries ending
| trace_raw line rest text chunks entries ending :
    fragment_of json_loads line = Raw text ->
    stream_trace json_loads rest chunks entries ending ->
    stream_trace json_loads (Line line rest)
      ((text ++ " ") :: chunks) entries ending.

(** The generator state after more chunks and more log entries. *)
Definition push (chunks : list string) (entries : list pyval) (g : Gen)
  : Gen :=
  {| gen_self :=
       set_tool_call_logs (tool_call_logs (gen_self g) ++ entries) (gen_self g);
     yielded := yielded g ++ chunks;
     printed := printed g |}.

(** The generator state after [self.tool_call_logs = []]. *)
Definition reset_logs (g : Gen) : Gen :=
  {| gen_self := set_tool_call_logs [] (gen_self g);
     yielded := yielded g;
     printed := printed g |}.

(** The generator state after the handler of the outer [try] has printed
    and yielded the error text. *)
Definition report (e : exn) (g : Gen) : Gen :=
  {| gen_self := gen_self g;
     yielded := yielded g ++ [error_text e];
     printed := printed g ++ [error_text e] |}.

(** A generator not yet started on [self]. *)
Definition fresh (self : RemoteAgent) : Gen :=
  {| gen_self := self; yielded := []; printed := [] |}.

(** The entry [handle_tool_call] logs. *)
Definition tool_call_record (source : string) (destination : pyval)
    (arguments : string) (response : pyval) : pyval :=
  PDict [("Tool_call_source", PStr source);
         ("Tool_call_Destination", destination);
         ("Tool_call_Arguments", PStr arguments);
         ("Tool_call_Response", response)].

(** The arguments [handle_tool_call] reads from the text [text]: what the
    text decodes to, or the empty dict when it does not decode. *)
Definition decoded_arguments (json_loads : string -> option pyval)
    (text : string) : pyval :=
  match json_loads text with
  | Some args => args
  | None => PDict []
  end.

(** The text of the [arguments] field of a descriptor's function data,
    when the field is a string or is missing. *)
Definition arguments_text (function_data : dict) : option string :=
  match dict_get function_data "arguments" with
  | Some (PStr text) => Some text
  | Some _ => None
  | None => Some "{}"
  end.

(** The text returned for a tool the registry does not have. *)
Definition not_found (name : string) : string :=
  "[Tool '" ++ name ++ "' not found]".

(** Whether the agent can resolve [name]. *)
Definition resolve (self : RemoteAgent) (name : pyval) : option Tool :=
  match tool_registry self with
  | Some registry => get_tool registry name
  | None => None
  end.

(** ** The health probe *)

(** What [session.get(url)] hands to the transport. *)
Record GetRequest : Type := mk_GetRequest {
  get_url : string;
  get_headers : list (string * string);
  get_verify : bool
}.

Section Setup.

(** The remote side, for a [GET]. *)
Variable network_get : GetRequest -> outcome Response.

(** [session.get(url)] *)
Definition session_get (s : Session) (target : string) : outcome Response :=
  network_get {| get_url := target;
                 get_headers := headers s;
                 get_verify := verify s |}.

(** The body of the [try] of [setup]. *)
Definition setup_try : M RemoteAgent unit :=
  self <- get_state ;;
  let health_url := base_url self ++ "/health" in
  response <- lift (session_get (session self) health_url) ;;
  lift (raise_for_status response).

(** [RemoteAgent.setup]: every exception of the probe is raised again as
    the built-in [ConnectionError]. *)
Definition setup : M RemoteAgent unit :=
  try_except setup_try
    (fun e =>
       self <- get_state ;;
       lift (Raise (PyException "ConnectionError"
                      ("Failed to connect to remote agent at "
                       ++ base_url self ++ ": " ++ str_exn e)))).

End Setup.

(** ** The caller: draining the call log (examples, [main]) *)

(** The loop of [main] over [selected_agent.tool_call_logs]:
    [tool_calls_log[f"ToolCall{idx}"] = call; idx += 1]. *)
Fixpoint number_tool_calls (logs : list pyval) (tool_calls_log : dict)
    (idx : Z) : dict * Z :=
  match logs with
  | [] => (tool_calls_log, idx)
  | call :: rest =>
      number_tool_calls rest
        (dict_set tool_calls_log ("ToolCall" ++ str_of_Z idx) call)
        (idx + 1)%Z
  end.

(** The part of [main] that moves the call log of the selected agent into
    the message log: it numbers the entries from 1, puts the call of the
    caller's own after them and empties the buffer.  An agent without the
    attribute ([None]) contributes the caller's own call only. *)
Definition drain_tool_calls (logs : option (list pyval))
    (final_agent_tool_call : pyval) : dict * option (list pyval) :=
  let tool_calls_log : dict := [] in
  let idx := 1%Z in
  match logs with
  | Some entries =>
      let '(tool_calls_log, idx) :=
        number_tool_calls entries tool_calls_log idx in
      (dict_set tool_calls_log ("ToolCall" ++ str_of_Z idx)
         final_agent_tool_call,
       Some [])
  | None =>
      (dict_set tool_calls_log ("ToolCall" ++ str_of_Z idx)
         final_agent_tool_call,
       None)
  end.

(** ** The visualizer: drawing the logged tool calls *)

(** [s.replace(old, new)] for an [old] of one character *)
Fixpoint replace_char (old : ascii) (new : string) (s : string) : string :=
  match s with
  | EmptyString => EmptyString
  | String a rest =>
      if Ascii.eqb a old then new ++ replace_char old new rest
      else String a (replace_char old new rest)
  end.

(** [escape_quotes] of the visualizers: a backslash before every double
    quote, and the empty string for [None]. *)
Definition escape_quotes (text : option string) : string :=
  match text with
  | None => EmptyString
  | Some text =>
      replace_char (ascii_of_N 34) (String (ascii_of_N 92) dquote) text
  end.

Section Visualizer.

(** [str(v)] for a value that is not a string *)
Variable str_other : pyval -> string.

(** The body of the loop of [main] over the logged tool calls: the two
    arrows of one call, appended to [dot_lines], and the counter after
    them. *)
Definition draw_tool_call (tc : pyval) (dot_lines : list string)
    (arrow_counter : Z) : outcome (list string * Z) :=
  match py_get tc "Tool_call_source" (PStr "unknown") with
  | Raise e => Raise e
  | Return source =>
  match py_get tc "Tool_call_Destination" (PStr "unknown") with
  | Raise e => Raise e
  | Return destination =>
  match py_get tc "Tool_call_Arguments" (PStr EmptyString) with
  | Raise e => Raise e
  | Return arguments =>
      let tooltip_tool_call :=
        format str_other source ++ " > " ++ format str_other destination
        ++ " , Message Passed: " ++ format str_other arguments in
      let tooltip_tool_call := escape_quotes (Some tooltip_tool_call) in
      let arrow :=
        "    " ++ format str_other source ++ " -> " ++ dquote
        ++ format str_other destination ++ dquote ++ " [label=" ++ dquote
        ++ str_of_Z arrow_counter ++ dquote ++ ", tooltip=" ++ dquote
        ++ tooltip_tool_call ++ dquote ++ "];" in
      let dot_lines := (dot_lines ++ [arrow])%list in
      let arrow_counter := (arrow_counter + 1)%Z in
      match py_get tc "Tool_call_Response" (PStr EmptyString) with
      | Raise e => Raise e
      | Return response =>
          let tooltip_tool_call_resp :=
            format str_other destination ++ " > " ++ format str_other source
            ++ " , Message Passed: " ++ format str_other response in
          let tooltip_tool_call_resp :=
            escape_quotes (Some tooltip_tool_call_resp) in
          let arrow_back :=
            "    " ++ dquote ++ format str_other destination ++ dquote
            ++ " -> " ++ format str_other source ++ " [label=" ++ dquote
            ++ str_of_Z arrow_counter ++ dquote ++ ", tooltip=" ++ dquote
            ++ tooltip_tool_call_resp ++ dquote ++ "];" in
          let dot_lines := (dot_lines ++ [arrow_back])%list in
          Return (dot_lines, (arrow_counter + 1)%Z)
      end
  end end end.


End Visualizer.

(** ** Vocabulary of the further statements *)

(** What [setup] hands to the transport. *)
Definition health_request (self : RemoteAgent) : GetRequest :=
  {| get_url := base_url self ++ "/health";
     get_headers := headers (session self);
     get_verify := verify (session self) |}.

(** The lines of a stream the loop does not pass over. *)
Fixpoint payload_lines (lines : line_iter) : line_iter :=
  match lines with
  | Eof => Eof
  | Broken e => Broken e
  | Line line rest =>
      match payload_of line with
      | Some _ => Line line (payload_lines rest)
      | None => payload_lines rest
      end
  end.

(** How many lines of a stream the loop does not pass over. *)
Fixpoint count_payloads (lines : line_iter) : nat :=
  match lines with
  | Eof => O
  | Broken _ => O
  | Line line rest =>
      match payload_of line with
      | Some _ => S (count_payloads rest)
      | None => count_payloads rest
      end
  end.

(** A response with other lines in its body. *)
Definition with_lines (r : Response) (lines : line_iter) : Response :=
  {| status_code := status_code r;
     reason := reason r;
     url := url r;
     json := json r;
     iter_lines := lines |}.

(** Whether a value is one [list.extend] cannot iterate. *)
Definition not_iterable (v : pyval) : bool :=
  match v with
  | PNone | PBool _ | PInt _ | PFloat _ => true
  | PStr _ | PList _ | PDict _ => false
  end.

(** Whether a value is a JSON object. *)
Definition is_object (v : pyval) : bool :=
  match v with
  | PDict _ => true
  | _ => false
  end.

(** The key [main] gives to the call numbered [idx]. *)
Definition tool_call_key (idx : Z) : string := "ToolCall" ++ str_of_Z idx.

(** The keys of [count] calls numbered from [first]. *)
Fixpoint tool_call_keys (first : Z) (count : nat) : list string :=
  match count with
  | O => []
  | S count' => tool_call_key first :: tool_call_keys (first + 1)%Z count'
  end.

(** Whether every double quote of a text has a backslash right before it;
    [after_backslash] tells whether the text follows a backslash. *)
Fixpoint no_bare_quote (after_backslash : bool) (s : string) : bool :=
  match s with
  | EmptyString => true
  | String a rest =>
      if Ascii.eqb a (ascii_of_N 34)
      then after_backslash && no_bare_quote false rest
      else no_bare_quote (Ascii.eqb a (ascii_of_N 92)) rest
  end.

(** How many double quotes a text has. *)
Fixpoint count_quotes (s : string) : nat :=
  match s with
  | EmptyString => O
  | String a rest =>
      if Ascii.eqb a (ascii_of_N 34) then S (count_quotes rest)
      else count_quotes rest
  end.


(** The [response] field of a body, or the empty string. *)
Definition response_of_body (d : dict) : pyval :=
  match dict_get d "response" with
  | Some text => text
  | None => PStr EmptyString
  end.

(** A transport that answers every [GET] with the same response. *)
Definition get_answers (r : Response) : GetRequest -> outcome Response :=
  fun _ => Return r.

(** A probe answered with 503. *)
Definition unavailable : Response :=
  {| status_code := 503;
     reason := "Service Unavailable";
     url := "http://localhost:8000/health";
     json := Raise (PyException "JSONDecodeError"
                      "Expecting value: line 1 column 1 (char 0)");
     iter_lines := Eof |}.

(** * Properties *)

(** ** Strings *)

Lemma string_of_list_ascii_app (x y : list ascii) :
  string_of_list_ascii (x ++ y)
  = string_of_list_ascii x ++ string_of_list_ascii y.
Proof.
  induction x as [|a x IH]; simpl; [reflexivity|].
  now rewrite IH.
Qed.

Lemma drop_while_split {A : Type} (f : A -> bool) (l : list A) :
  exists pre, l = (pre ++ drop_while f l)%list /\ forallb f pre = true.
Proof.
  induction l as [|a l IH]; simpl.
  - exists []. split; reflexivity.
  - destruct (f a) eqn:Fa.
    + destruct IH as [pre [E P]].
      exists (a :: pre). simpl. rewrite Fa, P. split; [now rewrite <- E|reflexivity].
    + exists []. split; reflexivity.
Qed.

Lemma drop_while_head {A : Type} (f : A -> bool) (l : list A) a rest :
  drop_while f l = a :: rest -> f a = false.
Proof.
  induction l as [|b l IH]; simpl; [discriminate|].
  destruct (f b) eqn:Fb; [exact IH|].
  intros E. inversion E; subst. exact Fb.
Qed.

Lemma forallb_slash (pre : list ascii) :
  forallb (char_in "/") pre = true -> pre = repeat "/"%char (List.length pre).
Proof.
  induction pre as [|a pre IH]; simpl; [reflexivity|].
  intros H. apply andb_prop in H as [Ha Hp].
  unfold char_in in Ha. simpl in Ha. rewrite orb_false_r in Ha.
  apply Ascii.eqb_eq in Ha. subst a. now rewrite <- IH.
Qed.

Lemma rev_repeat {A : Type} (a : A) (k : nat) : rev (repeat a k) = repeat a k.
Proof.
  induction k as [|k IH]; simpl; [reflexivity|].
  rewrite IH. clear IH. induction k as [|k IH]; simpl; [reflexivity|].
  now rewrite IH.
Qed.

Lemma rstrip_slash_decompose (b : string) :
  exists k, b = rstrip "/" b ++ slashes k.
Proof.
  unfold rstrip, slashes.
  destruct (drop_while_split (char_in "/") (rev (list_ascii_of_string b)))
    as [pre [E P]].
  exists (List.length pre).
  rewrite <- string_of_list_ascii_app.
  apply forallb_slash in P.
  rewrite <- (rev_repeat "/"%char), <- P, <- rev_app_distr, <- E, rev_involutive.
  now rewrite string_of_list_ascii_of_string.
Qed.

Lemma rstrip_slash_no_trailing (b : string) :
  endswith "/" (rstrip "/" b) = false.
Proof.
  unfold endswith, rstrip.
  rewrite list_ascii_of_string_of_list_ascii, rev_involutive.
  destruct (drop_while (char_in "/") (rev (list_ascii_of_string b)))
    as [|a rest] eqn:E; [reflexivity|].
  apply drop_while_head in E. unfold char_in in E. simpl in E.
  rewrite orb_false_r in E.
  change (Ascii.eqb "/" a && true = false).
  now rewrite Ascii.eqb_sym, E.
Qed.

(** ** Construction *)

(** C5. Construction raises the configuration error ([ValueError]) when the
    base address is absent or empty.  Otherwise it succeeds and stores the
    address with every trailing [/] removed: the address given is the stored
    one followed by separators only, and the stored one does not end in a
    separator.  For [http://x/] the stored address is [http://x] and the
    request of [handle_message] goes to [http://x/chat]. *)
Theorem init_normalises_base_url (config : RemoteAgentConfig) :
  (config_base_url config = None \/ config_base_url config = Some EmptyString ->
   RemoteAgent_init config
   = Raise (PyException "ValueError" "RemoteAgent base URL is required."))
  /\ (forall b,
        config_base_url config = Some b -> b <> EmptyString ->
        exists self k,
          RemoteAgent_init config = Return self
          /\ base_url self = rstrip "/" b
          /\ b = base_url self ++ slashes k
          /\ endswith "/" (base_url self) = false)
  /\ (config_base_url config = Some "http://x/" ->
      exists self,
        RemoteAgent_init config = Return self
        /\ base_url self = "http://x"
        /\ forall message kwargs,
             fst (handle_message Examples.echo_url message kwargs self)
             = Return (PStr "[RemoteAgent error: http://x/chat]")).
Proof.
  split; [|split].
  - intros [E|E]; unfold RemoteAgent_init; rewrite E; reflexivity.
  - intros b E Hb. unfold RemoteAgent_init. rewrite E.
    apply String.eqb_neq in Hb. simpl. rewrite Hb. simpl.
    destruct (rstrip_slash_decompose b) as [k Hk].
    eexists. exists k. repeat split.
    + exact Hk.
    + apply rstrip_slash_no_trailing.
  - intros E. unfold RemoteAgent_init. rewrite E. simpl.
    eexists. repeat split.
Qed.

Lemma init_normalises_base_url_witness :
  exists self,
    RemoteAgent_init (Examples.with_base_url (Some "http://x/")) = Return self
    /\ base_url self = "http://x"
    /\ forall message kwargs,
         fst (handle_message Examples.echo_url message kwargs self)
         = Return (PStr "[RemoteAgent error: http://x/chat]").
Proof.
  destruct (init_normalises_base_url
              (Examples.with_base_url (Some "http://x/"))) as [_ [_ H]].
  exact (H eq_refl).
Defined.

(** ** The synchronous send *)

Lemma append_not_empty (a b : string) : b <> EmptyString -> a ++ b <> EmptyString.
Proof. destruct a; simpl; [auto|discriminate]. Qed.

Lemma raise_for_status_error (r : Response) :
  (400 <= status_code r < 600)%Z ->
  exists msg, raise_for_status r = Raise (HTTPError (status_code r) msg)
              /\ msg <> EmptyString.
Proof.
  intros H. unfold raise_for_status.
  destruct ((400 <=? status_code r) && (status_code r <? 500))%Z eqn:C.
  - match goal with |- context [negb (?m =? _)%string] => set (msg := m) end.
    assert (N : msg <> EmptyString) by (apply append_not_empty; discriminate).
    apply String.eqb_neq in N as N'. rewrite N'. simpl. now exists msg.
  - assert (C' : ((500 <=? status_code r) && (status_code r <? 600))%Z = true).
    { apply andb_false_iff in C. apply andb_true_iff. lia. }
    rewrite C'.
    match goal with |- context [negb (?m =? _)%string] => set (msg := m) end.
    assert (N : msg <> EmptyString) by (apply append_not_empty; discriminate).
    apply String.eqb_neq in N as N'. rewrite N'. simpl. now exists msg.
Qed.

Lemma raise_for_status_ok (r : Response) :
  ~ (400 <= status_code r < 600)%Z -> raise_for_status r = Return tt.
Proof.
  intros H. unfold raise_for_status.
  destruct ((400 <=? status_code r) && (status_code r <? 500))%Z eqn:C.
  - apply andb_true_iff in C. lia.
  - destruct ((500 <=? status_code r) && (status_code r <? 600))%Z eqn:C'.
    + apply andb_true_iff in C'. lia.
    + reflexivity.
Qed.

Lemma raise_for_status_cases (r : Response) :
  raise_for_status r = Return tt
  \/ exists msg, raise_for_status r = Raise (HTTPError (status_code r) msg).
Proof.
  unfold raise_for_status.
  match goal with |- context [negb ?c] => destruct (negb c) end; eauto.
Qed.

Lemma set_tool_call_logs_same (self : RemoteAgent) :
  set_tool_call_logs (tool_call_logs self) self = self.
Proof. now destruct self. Qed.

Section HandleMessage.

Variable network : Request -> outcome Response.
Variables (message : string) (kwargs : dict) (self : RemoteAgent).

Let request := chat_request self message kwargs.

Lemma handle_message_try_refused (e : exn) :
  network request = Raise e ->
  handle_message_try network message kwargs self = (Raise e, self).
Proof.
  intros H. unfold handle_message_try, bind, lift, get_state, session_post.
  fold (chat_request self message kwargs). fold request. now rewrite H.
Qed.

Lemma handle_message_try_status (r : Response) (e : exn) :
  network request = Return r ->
  raise_for_status r = Raise e ->
  handle_message_try network message kwargs self = (Raise e, self).
Proof.
  intros H S. unfold handle_message_try, bind, lift, get_state, session_post.
  fold (chat_request self message kwargs). fold request. now rewrite H, S.
Qed.

(** The [try] in full: what it gives for each answer of the network. *)
Lemma handle_message_try_answered (r : Response) :
  network request = Return r ->
  raise_for_status r = Return tt ->
  handle_message_try network message kwargs self
  = match json r with
    | Raise e => (Raise e, self)
    | Return json_response =>
        match py_get json_response "response" (PStr EmptyString),
              py_get json_response "tool_calls" (PList []) with
        | Raise e, _ => (Raise e, self)
        | Return _, Raise e => (Raise e, self)
        | Return res_text, Return tool_calls =>
            if truthy tool_calls then
              match py_iter tool_calls with
              | Raise e => (Raise e, self)
              | Return items =>
                  (Return res_text,
                   set_tool_call_logs (tool_call_logs self ++ items) self)
              end
            else (Return res_text, self)
        end
    end.
Proof.
  intros H S. unfold handle_message_try, bind, lift, get_state, session_post.
  fold (chat_request self message kwargs). fold request. rewrite H, S.
  destruct (json r) as [j|e]; [|reflexivity].
  destruct (py_get j "response" (PStr EmptyString)) as [res|e];
    [|reflexivity].
  destruct (py_get j "tool_calls" (PList [])) as [tc|e]; [|reflexivity].
  destruct (truthy tc); [|reflexivity].
  unfold extend_logs, bind, lift, modify, ret.
  destruct (py_iter tc); reflexivity.
Qed.

(** An exception leaves the [try] before anything is written to the
    agent. *)
Lemma handle_message_try_raise_state (e : exn) (self' : RemoteAgent) :
  handle_message_try network message kwargs self = (Raise e, self') ->
  self' = self.
Proof.
  destruct (network request) as [r|e0] eqn:N.
  - destruct (raise_for_status_cases r) as [S|[msg S]].
    + rewrite (handle_message_try_answered r N S).
      destruct (json r) as [j|e1]; [|congruence].
      destruct (py_get j "response" (PStr EmptyString)) as [res|e1];
        destruct (py_get j "tool_calls" (PList [])) as [tc|e2];
        try congruence.
      destruct (truthy tc); [|congruence].
      destruct (py_iter tc); congruence.
    + rewrite (handle_message_try_status r _ N S). congruence.
  - rewrite (handle_message_try_refused e0 N). congruence.
Qed.

Lemma handle_message_handler (e : exn) (self' : RemoteAgent) :
  handle_message_try network message kwargs self = (Raise e, self') ->
  handle_message network message kwargs self
  = (Return (PStr (sentinel e)), self').
Proof.
  intros H. unfold handle_message, try_except. rewrite H.
  destruct e as [code msg|cls msg]; simpl; [|reflexivity].
  destruct (code =? 401)%Z; reflexivity.
Qed.

Lemma handle_message_no_handler (v : pyval) (self' : RemoteAgent) :
  handle_message_try network message kwargs self = (Return v, self') ->
  handle_message network message kwargs self = (Return v, self').
Proof. intros H. unfold handle_message, try_except. now rewrite H. Qed.

End HandleMessage.

(** C10. Whenever the [try] of [handle_message] raises, the call returns
    the sentinel text of that exception and the agent, with its call log,
    is exactly as before the call.  This covers a request the transport
    refuses and a response whose status is an HTTP error. *)
Theorem failed_send_keeps_log
    (network : Request -> outcome Response) (message : string)
    (kwargs : dict) (self : RemoteAgent) :
  (forall e self',
     handle_message_try network message kwargs self = (Raise e, self') ->
     handle_message network message kwargs self
     = (Return (PStr (sentinel e)), self)
     /\ tool_call_logs (snd (handle_message network message kwargs self))
        = tool_call_logs self)
  /\ (forall e,
        network (chat_request self message kwargs) = Raise e ->
        handle_message_try network message kwargs self = (Raise e, self))
  /\ (forall r,
        network (chat_request self message kwargs) = Return r ->
        (400 <= status_code r < 600)%Z ->
        exists msg,
          handle_message_try network message kwargs self
          = (Raise (HTTPError (status_code r) msg), self)).
Proof.
  split; [|split].
  - intros e self' H.
    pose proof (handle_message_try_raise_state _ _ _ _ _ _ H) as ->.
    rewrite (handle_message_handler _ _ _ _ _ _ H). split; reflexivity.
  - intros e H. now apply handle_message_try_refused.
  - intros r H C. destruct (raise_for_status_error r C) as [msg [S _]].
    exists msg. now apply (handle_message_try_status _ _ _ _ r).
Qed.

Lemma failed_send_keeps_log_witness :
  let network := Examples.refuses (PyException "ConnectionError" "Connection reset by peer") in
  let self := set_tool_call_logs [PStr "earlier"] Examples.joke_agent in
  handle_message network "hello" [] self
  = (Return (PStr "[RemoteAgent error: Connection reset by peer]"), self)
  /\ tool_call_logs (snd (handle_message network "hello" [] self))
     = [PStr "earlier"].
Proof.
  intros network self.
  destruct (failed_send_keeps_log network "hello" [] self) as [H _].
  apply (H (PyException "ConnectionError" "Connection reset by peer") self).
  reflexivity.
Defined.

(** X19. The paths of [handle_message].  It never raises: it returns a value for
    every message and keyword arguments.  A response with status 401 gives the
    authentication sentinel; any other HTTP error status, a refusal of the
    transport, and every other exception of the [try] give the generic
    sentinel, which holds [str(e)].  The value returned is a string on all
    these paths; on success it is the [response] field of the body as it
    stands, so it is a string unless the body carries another value
    there. *)
Theorem handle_message_never_raises
    (network : Request -> outcome Response) (message : string)
    (kwargs : dict) (self : RemoteAgent) :
  (exists v self',
     handle_message network message kwargs self = (Return v, self'))
  /\ (forall r,
        network (chat_request self message kwargs) = Return r ->
        status_code r = 401%Z ->
        fst (handle_message network message kwargs self)
        = Return (PStr authentication_failed))
  /\ (forall r,
        network (chat_request self message kwargs) = Return r ->
        (400 <= status_code r < 600)%Z -> status_code r <> 401%Z ->
        exists msg,
          raise_for_status r = Raise (HTTPError (status_code r) msg)
          /\ fst (handle_message network message kwargs self)
             = Return (PStr ("[RemoteAgent error: " ++ msg ++ "]")))
  /\ (forall cls msg,
        network (chat_request self message kwargs)
        = Raise (PyException cls msg) ->
        fst (handle_message network message kwargs self)
        = Return (PStr ("[RemoteAgent error: " ++ msg ++ "]")))
  /\ (forall e self',
        handle_message_try network message kwargs self = (Raise e, self') ->
        (forall msg, e <> HTTPError 401 msg) ->
        fst (handle_message network message kwargs self)
        = Return (PStr ("[RemoteAgent error: " ++ str_exn e ++ "]")))
  /\ (forall v,
        fst (handle_message network message kwargs self) = Return v ->
        (exists text, v = PStr text)
        \/ (exists r d,
              network (chat_request self message kwargs) = Return r
              /\ json r = Return (PDict d)
              /\ dict_get d "response" = Some v)).
Proof.
  repeat apply conj.
  - destruct (handle_message_try network message kwargs self) as [[v|e] s1] eqn:T.
    + exists v, s1. now apply handle_message_no_handler.
    + exists (PStr (sentinel e)), s1. now apply handle_message_handler.
  - intros r N C.
    destruct (raise_for_status_error r ltac:(lia)) as [msg [S _]].
    rewrite (handle_message_handler _ _ _ _ _ _
               (handle_message_try_status _ _ _ _ r _ N S)).
    simpl. now rewrite C.
  - intros r N C C'.
    destruct (raise_for_status_error r C) as [msg [S _]].
    exists msg. split; [exact S|].
    rewrite (handle_message_handler _ _ _ _ _ _
               (handle_message_try_status _ _ _ _ r _ N S)).
    simpl. apply Z.eqb_neq in C'. now rewrite C'.
  - intros cls msg N.
    now rewrite (handle_message_handler _ _ _ _ _ _
                   (handle_message_try_refused _ _ _ _ _ N)).
  - intros e self' T NA.
    rewrite (handle_message_handler _ _ _ _ _ _ T). simpl.
    destruct e as [code msg|cls msg]; simpl; [|reflexivity].
    destruct (code =? 401)%Z eqn:C; [|reflexivity].
    apply Z.eqb_eq in C. subst code. now destruct (NA msg).
  - intros v R.
    destruct (handle_message_try network message kwargs self) as [[v'|e] s1] eqn:T.
    + rewrite (handle_message_no_handler _ _ _ _ _ _ T) in R.
      simpl in R. inversion R; subst v'. clear R.
      destruct (network (chat_request self message kwargs)) as [r|e0] eqn:N;
        [|rewrite (handle_message_try_refused _ _ _ _ _ N) in T; discriminate].
      destruct (raise_for_status_cases r) as [S|[msg S]];
        [|rewrite (handle_message_try_status _ _ _ _ r _ N S) in T; discriminate].
      rewrite (handle_message_try_answered _ _ _ _ r N S) in T.
      destruct (json r) as [j|e1] eqn:J; [|discriminate].
      destruct j as [| | | | |l|d]; try discriminate.
      simpl in T.
      destruct (dict_get d "response") as [x|] eqn:G.
      * assert (x = v) as ->
          by (destruct (truthy _); [destruct (py_iter _)|]; congruence).
        right. exists r, d. repeat split; assumption.
      * left. exists EmptyString.
        destruct (truthy _); [destruct (py_iter _)|]; congruence.
    + rewrite (handle_message_handler _ _ _ _ _ _ T) in R.
      simpl in R. inversion R. left. eauto.
Qed.

Lemma handle_message_never_raises_witness :
  fst (handle_message
         (Examples.answers
            (Examples.response_of 401 "Unauthorized"
               (Examples.body "") Eof))
         "hello" [("thread_id", PStr "t1")] Examples.joke_agent)
  = Return (PStr "[RemoteAgent error: Authentication failed]").
Proof.
  destruct (handle_message_never_raises
              (Examples.answers
                 (Examples.response_of 401 "Unauthorized"
                    (Examples.body "") Eof))
              "hello" [("thread_id", PStr "t1")] Examples.joke_agent)
    as [_ [H _]].
  apply (H (Examples.response_of 401 "Unauthorized" (Examples.body "") Eof));
    reflexivity.
Defined.

(** C1. The code breaks the claim, against its own signature ([-> str]) and
    docstring: the [response] field of the body is returned unchecked, so
    when the body is [{"response": 5}] the call returns the integer 5,
    which is not a string. *)
Lemma handle_message_returns_non_string :
  let network :=
    Examples.answers
      (Examples.response_of 200 "OK"
         (Examples.body (Examples.jq "{'response': 5}")) Eof) in
  fst (handle_message network "hello" [] Examples.joke_agent)
  = Return (PInt 5)
  /\ ~ (exists text,
          fst (handle_message network "hello" [] Examples.joke_agent)
          = Return (PStr text)).
Proof.
  split; [reflexivity|].
  intros [text H]. vm_compute in H. discriminate.
Qed.

(** C6, amended. On a successful send whose body is an object, the entries
    of its [tool_calls] list (none when the field is missing) are appended
    to the call log as they are and in their order, nothing else of the
    agent changes, and the call returns the [response] field, or the empty
    string when the body has none. *)
Theorem successful_send_appends_verbatim
    (network : Request -> outcome Response) (message : string)
    (kwargs : dict) (self : RemoteAgent) (r : Response) (d : dict)
    (entries : list pyval) :
  network (chat_request self message kwargs) = Return r ->
  ~ (400 <= status_code r < 600)%Z ->
  json r = Return (PDict d) ->
  dict_get d "tool_calls" = Some (PList entries)
  \/ (dict_get d "tool_calls" = None /\ entries = []) ->
  handle_message network message kwargs self
  = (Return (match dict_get d "response" with
             | Some text => text
             | None => PStr EmptyString
             end),
     set_tool_call_logs (tool_call_logs self ++ entries) self).
Proof.
  intros N C J E.
  apply handle_message_no_handler.
  rewrite (handle_message_try_answered _ _ _ _ r N (raise_for_status_ok r C)).
  rewrite J. simpl.
  destruct E as [E|[E ->]]; rewrite E; simpl.
  - destruct entries; [|reflexivity].
    now rewrite app_nil_r, set_tool_call_logs_same.
  - now rewrite app_nil_r, set_tool_call_logs_same.
Qed.

Lemma successful_send_appends_verbatim_witness :
  handle_message
    (Examples.answers
       Examples.store_reply)
    "hello" [] Examples.joke_agent
  = (Return (PStr "Hi"),
     set_tool_call_logs
       [PDict [("function",
                PDict [("name", PStr "Store"); ("arguments", PStr "{}")])]]
       Examples.joke_agent).
Proof.
  refine (successful_send_appends_verbatim
            (Examples.answers
               Examples.store_reply)
            "hello" [] Examples.joke_agent
            Examples.store_reply
            [("response", PStr "Hi");
             ("tool_calls",
              PList [PDict [("function",
                             PDict [("name", PStr "Store");
                                    ("arguments", PStr "{}")])]])]
            [PDict [("function",
                     PDict [("name", PStr "Store");
                            ("arguments", PStr "{}")])]]
            _ _ _ _).
  - reflexivity.
  - simpl. lia.
  - reflexivity.
  - left. reflexivity.
Defined.

(** C6 as stated fails: the entry appended for a tool call the response
    declares is that entry itself; it has no source field, so its source is
    not the name of the agent, and it has no destination field either. *)
Lemma logged_entry_is_not_a_record :
  let network :=
    Examples.answers
      Examples.store_reply in
  let logs :=
    tool_call_logs
      (snd (handle_message network "hello" [] Examples.joke_agent)) in
  map record_source logs = [None]
  /\ map record_destination logs = [None]
  /\ ~ Forall (fun entry =>
                 record_source entry
                 = Some (PStr (agent_name Examples.joke_agent))) logs.
Proof.
  repeat split.
  intros F. vm_compute in F. inversion F as [|x l H _]. discriminate.
Qed.

(** ** The streaming send *)

Lemma push_nothing (g : Gen) : push [] [] g = g.
Proof.
  unfold push. rewrite !app_nil_r, set_tool_call_logs_same. now destruct g.
Qed.

Lemma push_push (c1 c2 : list string) (e1 e2 : list pyval) (g : Gen) :
  push c2 e2 (push c1 e1 g) = push (c1 ++ c2) (e1 ++ e2) g.
Proof. unfold push. simpl. now rewrite !app_assoc. Qed.

Lemma remove_join_space_app (delta : string) :
  remove_join_space (delta ++ " ") = delta.
Proof.
  induction delta as [|a delta IH]; [reflexivity|].
  simpl. rewrite IH. destruct delta; reflexivity.
Qed.

Section Stream.

Variable network : Request -> outcome Response.
Variable json_loads : string -> option pyval.

(** One turn of the loop, by the kind of the line. *)
Lemma stream_loop_line (line : string) (rest : line_iter)
    (current_text : string) (g : Gen) :
  stream_loop json_loads (Line line rest) current_text g
  = match payload_of line with
    | None => stream_loop json_loads rest current_text g
    | Some content =>
        match classify json_loads content current_text g with
        | (Return text, g') =>
            stream_loop json_loads rest EmptyString (push [text ++ " "] [] g')
        | (Raise e, g') => (Raise e, g')
        end
    end.
Proof.
  unfold payload_of. cbn [stream_loop].
  destruct (negb (line =? "")%string && startswith "data:" line);
    [|reflexivity].
  destruct (negb (strip (str_drop 5 line) =? "")%string
            && negb (strip (str_drop 5 line) =? "done")%string);
    [|reflexivity].
  unfold bind at 1.
  destruct (classify json_loads _ current_text g) as [[text|e] g'];
    [|reflexivity].
  unfold bind, yield, modify. f_equal.
  unfold push. rewrite app_nil_r, set_tool_call_logs_same. now destruct g'.
Qed.

Lemma stream_loop_ignored line rest g :
  fragment_of json_loads line = Ignored ->
  stream_loop json_loads (Line line rest) EmptyString g
  = stream_loop json_loads rest EmptyString g.
Proof.
  intros F. rewrite stream_loop_line. unfold fragment_of in F.
  destruct (payload_of line) as [content|]; [|reflexivity].
  destruct (json_loads content) as [[| | | | | |d]|]; try discriminate.
  destruct (dict_get d "tool_calls") as [[]|]; try discriminate.
  destruct (dict_get d "content") as [[]|]; discriminate.
Qed.

Lemma stream_loop_tool_calls line rest items g :
  fragment_of json_loads line = ToolCalls items ->
  stream_loop json_loads (Line line rest) EmptyString g
  = stream_loop json_loads rest EmptyString (push [" "] items g).
Proof.
  intros F. rewrite stream_loop_line. unfold fragment_of in F.
  destruct (payload_of line) as [content|]; [|discriminate].
  unfold classify.
  destruct (json_loads content) as [[| | | | | |d]|]; try discriminate.
  destruct (dict_get d "tool_calls") as [[]|] eqn:G; try discriminate.
  - inversion F; subst.
    unfold bind, lift, py_contains, py_getitem, dict_contains. rewrite G.
    unfold on_self, extend_logs, bind, lift, modify, ret. simpl.
    f_equal. unfold push. simpl. now rewrite app_nil_r.
  - destruct (dict_get d "content") as [[]|]; discriminate.
Qed.

Lemma stream_loop_content line rest delta g :
  fragment_of json_loads line = Content delta ->
  stream_loop json_loads (Line line rest) EmptyString g
  = stream_loop json_loads rest EmptyString (push [delta ++ " "] [] g).
Proof.
  intros F. rewrite stream_loop_line. unfold fragment_of in F.
  destruct (payload_of line) as [content|]; [|discriminate].
  unfold classify.
  destruct (json_loads content) as [[| | | | | |d]|]; try discriminate.
  destruct (dict_get d "tool_calls") as [[]|] eqn:G; try discriminate.
  unfold bind, lift, py_contains, py_get, dict_contains. rewrite G.
  destruct (dict_get d "content") as [[]|]; try discriminate;
    inversion F; subst; reflexivity.
Qed.

Lemma stream_loop_raw line rest text g :
  fragment_of json_loads line = Raw text ->
  stream_loop json_loads (Line line rest) EmptyString g
  = stream_loop json_loads rest EmptyString (push [text ++ " "] [] g).
Proof.
  intros F. rewrite stream_loop_line. unfold fragment_of in F.
  destruct (payload_of line) as [content|]; [|discriminate].
  unfold classify.
  destruct (json_loads content) as [[| | | | | |d]|].
  7: { destruct (dict_get d "tool_calls") as [[]|]; try discriminate.
       destruct (dict_get d "content") as [[]|]; discriminate. }
  all: try discriminate.
  inversion F; subst. reflexivity.
Qed.

(** The loop on a stream of expected fragments. *)
Lemma stream_loop_trace lines chunks entries ending :
  stream_trace json_loads lines chunks entries ending ->
  forall g,
    stream_loop json_loads lines EmptyString g
    = (match ending with
       | None => Return EmptyString
       | Some e => Raise e
       end,
       push chunks entries g).
Proof.
  induction 1 as [|e|line rest chunks entries ending F _ IH
                  |line rest items chunks entries ending F _ IH
                  |line rest delta chunks entries ending F _ IH
                  |line rest text chunks entries ending F _ IH]; intros g.
  - simpl. unfold ret. now rewrite push_nothing.
  - simpl. unfold lift. now rewrite push_nothing.
  - now rewrite (stream_loop_ignored _ _ _ F), IH.
  - now rewrite (stream_loop_tool_calls _ _ _ _ F), IH, push_push.
  - now rewrite (stream_loop_content _ _ _ _ F), IH, push_push.
  - now rewrite (stream_loop_raw _ _ _ _ F), IH, push_push.
Qed.

Lemma content_stream_trace lines deltas :
  content_stream json_loads lines deltas ->
  stream_trace json_loads lines (map (fun d => d ++ " ") deltas) [] None.
Proof.
  induction 1; simpl; try (econstructor; eassumption).
Qed.

(** Closes a goal [(o, g) = (o', g') -> P g'] whose [P] holds of [g] as it
    stands. *)
Ltac ends_here :=
  let E := fresh "E" in
  intros E; inversion E; subst; clear E; simpl;
  first [ now split
        | split; [exists []; now rewrite app_nil_r | reflexivity] ].

(** The inner [try] yields nothing and prints nothing. *)
Lemma classify_output content current_text g o g' :
  classify json_loads content current_text g = (o, g') ->
  yielded g' = yielded g /\ printed g' = printed g.
Proof.
  unfold classify.
  destruct (json_loads content) as [v|].
  - unfold bind, lift.
    destruct (py_contains "tool_calls" v) as [[|]|e].
    + destruct (py_getitem v "tool_calls") as [tc|e].
      * unfold on_self, extend_logs, bind, lift, modify, ret.
        destruct (py_iter tc); ends_here.
      * ends_here.
    + destruct (py_get v "content" (PStr EmptyString)) as [delta|e];
        ends_here.
    + ends_here.
  - unfold ret. ends_here.
Qed.

(** The loop keeps the chunks already yielded, and prints nothing. *)
Lemma stream_loop_output lines :
  forall current_text g o g',
    stream_loop json_loads lines current_text g = (o, g') ->
    (exists chunks, yielded g' = yielded g ++ chunks)%list
    /\ printed g' = printed g.
Proof.
  induction lines as [|line rest IH|e]; intros current_text g o g'.
  - simpl. unfold ret. ends_here.
  - rewrite stream_loop_line.
    destruct (payload_of line) as [content|]; [|apply IH].
    destruct (classify json_loads content current_text g)
      as [[text|e] g1] eqn:C; apply classify_output in C as [Y P].
    + intros E. apply IH in E as [[chunks Y'] P']. simpl in *.
      rewrite Y, <- app_assoc in Y'. rewrite P in P'. eauto.
    + intros E; inversion E; subst.
      split; [exists []; now rewrite app_nil_r|assumption].
  - simpl. unfold lift. ends_here.
Qed.

(** The loop leaves [current_text] empty. *)
Lemma stream_loop_leaves_empty lines :
  forall g text g',
    stream_loop json_loads lines EmptyString g = (Return text, g') ->
    text = EmptyString.
Proof.
  induction lines as [|line rest IH|e]; intros g text g'.
  - simpl. unfold ret. congruence.
  - rewrite stream_loop_line.
    destruct (payload_of line) as [content|]; [|apply IH].
    destruct (classify json_loads content EmptyString g) as [[t|e] g1];
      [apply IH|discriminate].
  - simpl. unfold lift. discriminate.
Qed.

Variables (message : string) (kwargs : dict).

Lemma stream_try_refused (g : Gen) (e : exn) :
  network (stream_request (gen_self g) message kwargs) = Raise e ->
  handle_message_stream_try network json_loads message kwargs g
  = (Raise e, g).
Proof.
  intros N.
  unfold handle_message_stream_try, bind, lift, get_state, session_post.
  fold (stream_request (gen_self g) message kwargs). now rewrite N.
Qed.

Lemma stream_try_status (g : Gen) (r : Response) (e : exn) :
  network (stream_request (gen_self g) message kwargs) = Return r ->
  raise_for_status r = Raise e ->
  handle_message_stream_try network json_loads message kwargs g
  = (Raise e, g).
Proof.
  intros N S.
  unfold handle_message_stream_try, bind, lift, get_state, session_post.
  fold (stream_request (gen_self g) message kwargs). now rewrite N, S.
Qed.

(** Once the stream is open the [try] is the loop on the lines of the
    response, started on the emptied log. *)
Lemma stream_try_opened (g : Gen) (r : Response) :
  network (stream_request (gen_self g) message kwargs) = Return r ->
  raise_for_status r = Return tt ->
  handle_message_stream_try network json_loads message kwargs g
  = match stream_loop json_loads (iter_lines r) EmptyString (reset_logs g)
    with
    | (Return _, g') => (Return tt, g')
    | (Raise e, g') => (Raise e, g')
    end.
Proof.
  intros N S.
  unfold handle_message_stream_try, bind, lift, get_state, session_post.
  fold (stream_request (gen_self g) message kwargs). rewrite N, S.
  unfold on_self, modify. simpl. fold (reset_logs g).
  destruct (stream_loop json_loads (iter_lines r) EmptyString (reset_logs g))
    as [[text|e] g'] eqn:L; [|reflexivity].
  apply stream_loop_leaves_empty in L. subst text. reflexivity.
Qed.

Lemma stream_handler (g g1 : Gen) (e : exn) :
  handle_message_stream_try network json_loads message kwargs g
  = (Raise e, g1) ->
  handle_message_stream network json_loads message kwargs g
  = (Return tt, report e g1).
Proof.
  intros T. unfold handle_message_stream, try_except. now rewrite T.
Qed.

Lemma stream_no_handler (g g1 : Gen) :
  handle_message_stream_try network json_loads message kwargs g
  = (Return tt, g1) ->
  handle_message_stream network json_loads message kwargs g
  = (Return tt, g1).
Proof.
  intros T. unfold handle_message_stream, try_except. now rewrite T.
Qed.

(** The whole generator on a stream of expected fragments. *)
Lemma run_stream_trace (self : RemoteAgent) (r : Response)
    chunks entries ending :
  network (stream_request self message kwargs) = Return r ->
  ~ (400 <= status_code r < 600)%Z ->
  stream_trace json_loads (iter_lines r) chunks entries ending ->
  run_stream network json_loads self message kwargs
  = (Return tt,
     match ending with
     | None =>
         {| gen_self := set_tool_call_logs entries self;
            yielded := chunks;
            printed := [] |}
     | Some e =>
         {| gen_self := set_tool_call_logs entries self;
            yielded := chunks ++ [error_text e];
            printed := [error_text e] |}
     end).
Proof.
  intros N C T. unfold run_stream. fold (fresh self).
  pose proof (stream_try_opened (fresh self) r N (raise_for_status_ok r C))
    as O.
  rewrite (stream_loop_trace _ _ _ _ T) in O.
  destruct ending as [e|].
  - now rewrite (stream_handler _ _ _ O).
  - now rewrite (stream_no_handler _ _ O).
Qed.

End Stream.

(** C2, amended. A payload line that parses as an object with a
    [tool_calls] list makes the loop append every entry of the list to the
    call log, in order, and yield one chunk for the fragment: the join
    space alone, with no text before it.  For an opened stream made of one
    such fragment followed by content fragments, the log ends as exactly
    the entries of the fragment and the chunks are that space followed by
    the deltas, each with its join space. *)
Theorem tool_call_fragment_is_logged
    (network : Request -> outcome Response)
    (json_loads : string -> option pyval) (message : string) (kwargs : dict)
    (self : RemoteAgent) :
  (forall line rest items g,
     fragment_of json_loads line = ToolCalls items ->
     stream_loop json_loads (Line line rest) EmptyString g
     = stream_loop json_loads rest EmptyString (push [" "] items g))
  /\ (forall r line rest items deltas,
        network (stream_request self message kwargs) = Return r ->
        ~ (400 <= status_code r < 600)%Z ->
        iter_lines r = Line line rest ->
        fragment_of json_loads line = ToolCalls items ->
        content_stream json_loads rest deltas ->
        run_stream network json_loads self message kwargs
        = (Return tt,
           {| gen_self := set_tool_call_logs items self;
              yielded := " " :: map (fun d => d ++ " ") deltas;
              printed := [] |})).
Proof.
  split.
  - intros line rest items g F. now apply stream_loop_tool_calls.
  - intros r line rest items deltas N C L F D.
    rewrite (run_stream_trace network json_loads message kwargs self r
               (" " :: map (fun d => d ++ " ") deltas) (items ++ []) None N C).
    + now rewrite app_nil_r.
    + rewrite L. apply trace_tool_calls; [exact F|].
      now apply content_stream_trace.
Qed.

Lemma tool_call_fragment_is_logged_witness :
  run_stream
    (Examples.answers
       (Examples.stream_of (Examples.call_line :: Examples.hello_lines)))
    Codec.loads
    (set_tool_call_logs [PStr "earlier"] Examples.joke_agent) "hello" []
  = (Return tt,
     {| gen_self :=
          set_tool_call_logs [PDict [("id", PStr "1")]] Examples.joke_agent;
        yielded := [" "; "Hello "; "world "];
        printed := [] |}).
Proof.
  destruct (tool_call_fragment_is_logged
              (Examples.answers
                 (Examples.stream_of
                    (Examples.call_line :: Examples.hello_lines)))
              Codec.loads "hello" []
              (set_tool_call_logs [PStr "earlier"] Examples.joke_agent))
    as [_ H].
  refine (H _ Examples.call_line (Examples.lines_of Examples.hello_lines)
            [PDict [("id", PStr "1")]] ["Hello"; "world"]
            eq_refl _ eq_refl _ _).
  - simpl. lia.
  - vm_compute. reflexivity.
  - apply content_delta; [vm_compute; reflexivity|].
    apply content_delta; [vm_compute; reflexivity|].
    apply content_eof.
Defined.

(** C2 as stated fails: a chunk is yielded for the tool-call fragment.  The
    stream of the single fragment [{"tool_calls":[{"id":"1"}]}] yields one
    chunk, and followed by two content fragments it yields three. *)
Lemma tool_call_fragment_yields_a_chunk :
  let run lines :=
    run_stream (Examples.answers (Examples.stream_of lines))
      Codec.loads Examples.joke_agent "hello" [] in
  yielded (snd (run [Examples.call_line])) = [" "]
  /\ yielded (snd (run (Examples.call_line :: Examples.hello_lines)))
     = [" "; "Hello "; "world "]
  /\ yielded (snd (run [Examples.call_line])) <> [].
Proof.
  repeat split. vm_compute. discriminate.
Qed.

(** C3, amended. On an opened stream made only of content fragments whose
    object has no [tool_calls] key and whose [content] is a string (a
    missing [content] counts as the empty string; lines the loop passes
    over may lie between them), the generator ends without an
    error and yields one chunk for each fragment, in order, which is the
    delta of the fragment followed by one space; with that space removed
    the chunks are the deltas, and so are their concatenations. *)
Theorem content_stream_is_reproduced
    (network : Request -> outcome Response)
    (json_loads : string -> option pyval) (message : string) (kwargs : dict)
    (self : RemoteAgent) (r : Response) (deltas : list string) :
  network (stream_request self message kwargs) = Return r ->
  ~ (400 <= status_code r < 600)%Z ->
  content_stream json_loads (iter_lines r) deltas ->
  let out := run_stream network json_loads self message kwargs in
  fst out = Return tt
  /\ yielded (snd out) = map (fun d => d ++ " ") deltas
  /\ printed (snd out) = []
  /\ map remove_join_space (yielded (snd out)) = deltas
  /\ String.concat EmptyString (map remove_join_space (yielded (snd out)))
     = String.concat EmptyString deltas.
Proof.
  intros N C D out. subst out.
  rewrite (run_stream_trace network json_loads message kwargs self r
             _ _ None N C (content_stream_trace json_loads _ _ D)).
  simpl.
  assert (E : map remove_join_space (map (fun d => d ++ " ") deltas) = deltas).
  { rewrite map_map. clear. induction deltas as [|d ds IH]; simpl;
      [reflexivity|]. now rewrite remove_join_space_app, IH. }
  rewrite E. repeat split.
Qed.

Lemma content_stream_is_reproduced_witness :
  let out :=
    run_stream (Examples.answers (Examples.stream_of Examples.joke_lines))
      Codec.loads Examples.joke_agent "hello" [] in
  yielded (snd out) = ["Why did "; " the chicken "]
  /\ map remove_join_space (yielded (snd out)) = ["Why did"; " the chicken"].
Proof.
  intros out.
  destruct (content_stream_is_reproduced
              (Examples.answers (Examples.stream_of Examples.joke_lines))
              Codec.loads "hello" [] Examples.joke_agent
              (Examples.stream_of Examples.joke_lines)
              ["Why did"; " the chicken"])
    as [_ [Y [_ [R _]]]].
  - reflexivity.
  - simpl. lia.
  - apply content_delta; [vm_compute; reflexivity|].
    apply content_ignored; [vm_compute; reflexivity|].
    apply content_delta; [vm_compute; reflexivity|].
    apply content_ignored; [vm_compute; reflexivity|].
    apply content_eof.
  - split; [exact Y|exact R].
Defined.

(** C3 as stated fails: a payload line with a [content] field and no
    tool-call list is not always reproduced.  When the object also has
    [tool_calls] as [null], or when its [content] is a number, the loop
    raises at the line and the only chunk is the error text: the content
    is not yielded. *)
Lemma content_fragment_is_not_always_reproduced :
  let run lines :=
    run_stream (Examples.answers (Examples.stream_of lines))
      Codec.loads Examples.joke_agent "hello" [] in
  yielded
    (snd (run [Examples.jq "data: {'content': 'Hi', 'tool_calls': null}"]))
  = ["[RemoteAgent error: 'NoneType' object is not iterable]"]
  /\ yielded (snd (run [Examples.jq "data: {'content': 5}"]))
     = [error_text
          (PyException "TypeError"
             ("can only concatenate str (not " ++ dquote ++ "int" ++ dquote
              ++ ") to str"))]
  /\ map remove_join_space
       (yielded
          (snd (run [Examples.jq
                       "data: {'content': 'Hi', 'tool_calls': null}"])))
     <> ["Hi"].
Proof.
  repeat split. vm_compute. discriminate.
Qed.

Lemma run_stream_fresh
    (network : Request -> outcome Response)
    (json_loads : string -> option pyval) (self : RemoteAgent)
    (message : string) (kwargs : dict) :
  run_stream network json_loads self message kwargs
  = handle_message_stream network json_loads message kwargs (fresh self).
Proof. reflexivity. Qed.

Lemma stream_try_output
    (network : Request -> outcome Response)
    (json_loads : string -> option pyval) (message : string) (kwargs : dict)
    (g : Gen) (o : outcome unit) (g1 : Gen) :
  handle_message_stream_try network json_loads message kwargs g = (o, g1) ->
  (exists chunks, yielded g1 = yielded g ++ chunks)%list
  /\ printed g1 = printed g.
Proof.
  assert (Same : forall o', (o', g) = (o, g1) ->
            (exists chunks, yielded g1 = yielded g ++ chunks)%list
            /\ printed g1 = printed g).
  { intros o' E. inversion E; subst.
    split; [exists []; now rewrite app_nil_r|reflexivity]. }
  destruct (network (stream_request (gen_self g) message kwargs))
    as [r|e] eqn:N.
  - destruct (raise_for_status_cases r) as [S|[msg S]].
    + rewrite (stream_try_opened network json_loads message kwargs g r N S).
      destruct (stream_loop json_loads (iter_lines r) EmptyString (reset_logs g))
        as [o' g'] eqn:L.
      apply stream_loop_output in L. simpl in L.
      destruct o'; intros E; inversion E; subst; exact L.
    + rewrite (stream_try_status network json_loads message kwargs g r _ N S).
      apply Same.
  - rewrite (stream_try_refused network json_loads message kwargs g e N).
    apply Same.
Qed.

(** C4. The streaming send never raises: drained, the generator ends
    normally.  When an exception occurs in its [try], the chunks yielded
    until then stay, exactly one more chunk follows them and is the last,
    and this chunk is the error text of the exception, which begins with
    the error tag.  This is what happens when the transport refuses the
    request, when the response has an HTTP error status, and when the
    transport fails in the middle of the lines. *)
Theorem stream_error_is_one_final_fragment
    (network : Request -> outcome Response)
    (json_loads : string -> option pyval) (message : string) (kwargs : dict)
    (g : Gen) :
  (exists g',
     handle_message_stream network json_loads message kwargs g
     = (Return tt, g'))
  /\ (forall e g1,
        handle_message_stream_try network json_loads message kwargs g
        = (Raise e, g1) ->
        handle_message_stream network json_loads message kwargs g
        = (Return tt, report e g1)
        /\ (exists chunks,
              yielded (report e g1)
              = (yielded g ++ chunks ++ [error_text e])%list)
        /\ startswith "[RemoteAgent error: " (error_text e) = true)
  /\ (forall e,
        network (stream_request (gen_self g) message kwargs) = Raise e ->
        handle_message_stream network json_loads message kwargs g
        = (Return tt, report e g))
  /\ (forall r,
        network (stream_request (gen_self g) message kwargs) = Return r ->
        (400 <= status_code r < 600)%Z ->
        exists msg,
          handle_message_stream network json_loads message kwargs g
          = (Return tt, report (HTTPError (status_code r) msg) g))
  /\ (forall r chunks entries e,
        network (stream_request (gen_self g) message kwargs) = Return r ->
        ~ (400 <= status_code r < 600)%Z ->
        stream_trace json_loads (iter_lines r) chunks entries (Some e) ->
        handle_message_stream network json_loads message kwargs g
        = (Return tt, report e (push chunks entries (reset_logs g)))).
Proof.
  repeat apply conj.
  - destruct (handle_message_stream_try network json_loads message kwargs g)
      as [[[]|e] g1] eqn:T.
    + exists g1. now apply stream_no_handler.
    + exists (report e g1). now apply stream_handler.
  - intros e g1 T. split; [|split].
    + now apply stream_handler.
    + apply stream_try_output in T as [[chunks Y] _].
      exists chunks. simpl. now rewrite Y, app_assoc.
    + reflexivity.
  - intros e N. apply stream_handler. now apply stream_try_refused.
  - intros r N C. destruct (raise_for_status_error r C) as [msg [S _]].
    exists msg. apply stream_handler. now apply (stream_try_status _ _ _ _ _ r).
  - intros r chunks entries e N C T. apply stream_handler.
    rewrite (stream_try_opened network json_loads message kwargs g r N
               (raise_for_status_ok r C)).
    now rewrite (stream_loop_trace _ _ _ _ _ T).
Qed.

Lemma stream_error_is_one_final_fragment_witness :
  run_stream (Examples.answers Examples.broken_stream)
    Codec.loads Examples.joke_agent "hello" []
  = (Return tt,
     {| gen_self := Examples.joke_agent;
        yielded := ["Why did ";
                    "[RemoteAgent error: Connection broken: IncompleteRead]"];
        printed := ["[RemoteAgent error: Connection broken: IncompleteRead]"]
     |}).
Proof.
  destruct (stream_error_is_one_final_fragment
              (Examples.answers Examples.broken_stream)
              Codec.loads "hello" [] (fresh Examples.joke_agent))
    as [_ [_ [_ [_ H]]]].
  refine (H _ ["Why did "] []
            (PyException "ChunkedEncodingError"
               "Connection broken: IncompleteRead") eq_refl _ _).
  - simpl. lia.
  - apply (trace_content Codec.loads _ _ "Why did" [] []);
      [vm_compute; reflexivity|apply trace_broken].
Defined.

(** C7, amended. Once the stream is open, that is once the request has
    got a response whose status is not an HTTP error, the call log is
    emptied before the first line is read: the whole run is the same
    whatever the log held before, and on a stream of expected fragments
    the log ends as exactly the entries of its tool-call fragments.  When
    the stream does not open, because the transport refuses the request or
    the status is an HTTP error, the log is left as it was. *)
Theorem stream_resets_log_once_open
    (network : Request -> outcome Response)
    (json_loads : string -> option pyval) (message : string) (kwargs : dict)
    (self : RemoteAgent) :
  (forall r,
     network (stream_request self message kwargs) = Return r ->
     ~ (400 <= status_code r < 600)%Z ->
     (forall logs,
        run_stream network json_loads (set_tool_call_logs logs self)
          message kwargs
        = run_stream network json_loads (set_tool_call_logs [] self)
            message kwargs)
     /\ (forall chunks entries ending,
           stream_trace json_loads (iter_lines r) chunks entries ending ->
           tool_call_logs
             (gen_self (snd (run_stream network json_loads self
                               message kwargs)))
           = entries))
  /\ (forall e,
        network (stream_request self message kwargs) = Raise e ->
        tool_call_logs
          (gen_self (snd (run_stream network json_loads self message kwargs)))
        = tool_call_logs self)
  /\ (forall r,
        network (stream_request self message kwargs) = Return r ->
        (400 <= status_code r < 600)%Z ->
        tool_call_logs
          (gen_self (snd (run_stream network json_loads self message kwargs)))
        = tool_call_logs self).
Proof.
  repeat apply conj.
  - intros r N C. split.
    + intros logs. rewrite !run_stream_fresh.
      unfold handle_message_stream, try_except.
      rewrite (stream_try_opened network json_loads message kwargs
                 (fresh (set_tool_call_logs logs self)) r N
                 (raise_for_status_ok r C)).
      rewrite (stream_try_opened network json_loads message kwargs
                 (fresh (set_tool_call_logs [] self)) r N
                 (raise_for_status_ok r C)).
      reflexivity.
    + intros chunks entries ending T.
      rewrite (run_stream_trace network json_loads message kwargs self r
                 chunks entries ending N C T).
      now destruct ending.
  - intros e N. rewrite run_stream_fresh.
    now rewrite (stream_handler network json_loads message kwargs
                   (fresh self) (fresh self) e
                   (stream_try_refused network json_loads message kwargs
                      (fresh self) e N)).
  - intros r N C. destruct (raise_for_status_error r C) as [msg [S _]].
    rewrite run_stream_fresh.
    now rewrite (stream_handler network json_loads message kwargs
                   (fresh self) (fresh self) _
                   (stream_try_status network json_loads message kwargs
                      (fresh self) r _ N S)).
Qed.

Lemma stream_resets_log_once_open_witness :
  tool_call_logs
    (gen_self
       (snd (run_stream
               (Examples.answers (Examples.stream_of Examples.two_calls_lines))
               Codec.loads
               (set_tool_call_logs [PStr "earlier"] Examples.joke_agent)
               "hello" [])))
  = [PDict [("id", PStr "1")]; PDict [("id", PStr "2")]].
Proof.
  destruct (stream_resets_log_once_open
              (Examples.answers (Examples.stream_of Examples.two_calls_lines))
              Codec.loads "hello" []
              (set_tool_call_logs [PStr "earlier"] Examples.joke_agent))
    as [H _].
  destruct (H _ eq_refl ltac:(simpl; lia)) as [_ H'].
  apply (H' ["Hello "; " "]
            [PDict [("id", PStr "1")]; PDict [("id", PStr "2")]] None).
  apply (trace_content Codec.loads _ _ "Hello" [" "]);
    [vm_compute; reflexivity|].
  apply (trace_tool_calls Codec.loads _ _
           [PDict [("id", PStr "1")]; PDict [("id", PStr "2")]] [] [] None);
    [vm_compute; reflexivity|apply trace_eof].
Defined.

(** C7 as stated fails: when the transport refuses the request the log is
    not emptied.  After a synchronous send that logged a tool call, a
    streaming send that is refused leaves that entry in the log, though
    nothing was discovered during the streaming turn. *)
Lemma refused_stream_keeps_old_log :
  let self :=
    snd (handle_message (Examples.answers Examples.store_reply)
           "hello" [] Examples.joke_agent) in
  let out :=
    run_stream
      (Examples.refuses (PyException "ConnectionError" "Connection refused"))
      Codec.loads self "again" [] in
  yielded (snd out) = ["[RemoteAgent error: Connection refused]"]
  /\ tool_call_logs (gen_self (snd out))
     = [PDict [("function",
                PDict [("name", PStr "Store"); ("arguments", PStr "{}")])]]
  /\ tool_call_logs (gen_self (snd out)) <> [].
Proof.
  repeat split. vm_compute. discriminate.
Qed.

(** ** The tool dispatcher *)

Section ToolCall.

Variable json_loads : string -> option pyval.
Variable json_dumps : pyval -> string.
Variable str_other : pyval -> string.

Let dispatch := handle_tool_call json_loads json_dumps str_other.

(** A call that returns has appended one record; a call that raises has
    appended nothing. *)
Lemma handle_tool_call_cases (tool_call : dict) (self : RemoteAgent) :
  (exists v name arguments,
     dispatch tool_call self
     = (Return v,
        set_tool_call_logs
          (tool_call_logs self
           ++ [tool_call_record (agent_name self) name arguments v])
          self))
  \/ (exists e, dispatch tool_call self = (Raise e, self)).
Proof.
  unfold dispatch, handle_tool_call, bind, lift, get_state.
  destruct (py_get _ "name" PNone) as [name|e]; [|right; eauto].
  destruct (py_get _ "arguments" (PStr "{}")) as [arguments|e];
    [|right; eauto].
  destruct (loads_value json_loads arguments) as [parsed|e];
    [|right; eauto].
  destruct (match tool_registry self with
            | Some registry => get_tool registry name
            | None => None
            end) as [t|].
  - destruct (call_with (function_str t) (function t) _) as [v|e];
      [|right; eauto].
    left. exists v, name. eexists. reflexivity.
  - left. eexists. exists name. eexists. reflexivity.
Qed.

(** The dispatcher on a descriptor of the expected shape. *)
Lemma handle_tool_call_descriptor (tool_call function_data : dict)
    (name : pyval) (text : string) (self : RemoteAgent) :
  dict_get tool_call "function" = Some (PDict function_data) ->
  match dict_get function_data "name" with
  | Some n => n
  | None => PNone
  end = name ->
  arguments_text function_data = Some text ->
  dispatch tool_call self
  = let args := decoded_arguments json_loads text in
    let logged result :=
      set_tool_call_logs
        (tool_call_logs self
         ++ [tool_call_record (agent_name self) name (json_dumps args)
               result])
        self in
    match resolve self name with
    | Some t =>
        match call_with (function_str t) (function t) args with
        | Return result => (Return result, logged result)
        | Raise e => (Raise e, self)
        end
    | None =>
        (Return (PStr ("[Tool '" ++ format str_other name ++ "' not found]")),
         logged (PStr ("[Tool '" ++ format str_other name ++ "' not found]")))
    end.
Proof.
  intros F N A.
  unfold dispatch, handle_tool_call, bind, lift, get_state. rewrite F.
  unfold py_get. rewrite N. unfold arguments_text in A.
  assert (L : loads_value json_loads
                match dict_get function_data "arguments" with
                | Some x => x
                | None => PStr "{}"
                end = Return (json_loads text)).
  { destruct (dict_get function_data "arguments") as [[]|];
      try discriminate; inversion A; subst; reflexivity. }
  rewrite L. unfold resolve, decoded_arguments.
  destruct (match tool_registry self with
            | Some registry => get_tool registry name
            | None => None
            end) as [t|]; [|reflexivity].
  destruct (call_with (function_str t) (function t) _); reflexivity.
Qed.

End ToolCall.

(** C8, amended. An invocation of [handle_tool_call] that returns has
    appended exactly one record to the call log, which carries the name of
    the agent, the name asked for, the arguments and the value returned;
    this holds whether the tool was found or not.  An invocation that
    raises has appended nothing.  On a descriptor of the expected shape the
    call returns when the tool is missing, and when the tool is found, its
    arguments decode to an object and its function returns. *)
Theorem tool_call_logged_once_when_it_returns
    (json_loads : string -> option pyval) (json_dumps : pyval -> string)
    (str_other : pyval -> string) (tool_call : dict) (self : RemoteAgent) :
  (forall v self',
     handle_tool_call json_loads json_dumps str_other tool_call self
     = (Return v, self') ->
     (exists name arguments,
        tool_call_logs self'
        = (tool_call_logs self
           ++ [tool_call_record (agent_name self) name arguments v])%list)
     /\ List.length (tool_call_logs self')
        = S (List.length (tool_call_logs self)))
  /\ (forall e self',
        handle_tool_call json_loads json_dumps str_other tool_call self
        = (Raise e, self') ->
        self' = self)
  /\ (forall function_data name text,
        dict_get tool_call "function" = Some (PDict function_data) ->
        dict_get function_data "name" = Some (PStr name) ->
        arguments_text function_data = Some text ->
        resolve self (PStr name) = None ->
        exists self',
          handle_tool_call json_loads json_dumps str_other tool_call self
          = (Return (PStr (not_found name)), self'))
  /\ (forall function_data name text t d v,
        dict_get tool_call "function" = Some (PDict function_data) ->
        dict_get function_data "name" = Some (PStr name) ->
        arguments_text function_data = Some text ->
        resolve self (PStr name) = Some t ->
        decoded_arguments json_loads text = PDict d ->
        function t d = Return v ->
        exists self',
          handle_tool_call json_loads json_dumps str_other tool_call self
          = (Return v, self')).
Proof.
  repeat apply conj.
  - intros v self' H.
    destruct (handle_tool_call_cases json_loads json_dumps str_other
                tool_call self) as [[v' [name [arguments E]]]|[e E]];
      rewrite E in H; inversion H; subst.
    split.
    + exists name, arguments. reflexivity.
    + simpl. rewrite length_app. simpl. lia.
  - intros e self' H.
    destruct (handle_tool_call_cases json_loads json_dumps str_other
                tool_call self) as [[v' [name [arguments E]]]|[e' E]];
      rewrite E in H; inversion H; subst. reflexivity.
  - intros fd name text F N A R.
    rewrite (handle_tool_call_descriptor json_loads json_dumps str_other
               tool_call fd (PStr name) text self F); [|now rewrite N|exact A].
    simpl. rewrite R. eexists. reflexivity.
  - intros fd name text t d v F N A R D V.
    rewrite (handle_tool_call_descriptor json_loads json_dumps str_other
               tool_call fd (PStr name) text self F); [|now rewrite N|exact A].
    simpl. rewrite R, D. simpl. rewrite V. eexists. reflexivity.
Qed.

Lemma tool_call_logged_once_when_it_returns_witness :
  let self' :=
    snd (handle_tool_call Codec.loads Codec.dumps Codec.str
           (Examples.descriptor "Add" (Examples.jq "{'a': 1, 'b': 2}"))
           Examples.tool_agent) in
  (exists name arguments,
     tool_call_logs self'
     = [tool_call_record "joke_agent" name arguments (PInt 3)])
  /\ List.length (tool_call_logs self') = 1.
Proof.
  intros self'.
  destruct (tool_call_logged_once_when_it_returns
              Codec.loads Codec.dumps Codec.str
              (Examples.descriptor "Add" (Examples.jq "{'a': 1, 'b': 2}"))
              Examples.tool_agent) as [H _].
  exact (H (PInt 3) self' eq_refl).
Defined.

(** C8 as stated fails: when the function of the tool raises, and when the
    tool is found but the arguments decode to something that is not an
    object, the invocation raises and no record is appended. *)
Lemma raising_tool_call_is_not_logged :
  handle_tool_call Codec.loads Codec.dumps Codec.str
    (Examples.descriptor "Explode" "{}") Examples.tool_agent
  = (Raise (PyException "RuntimeError" "boom"), Examples.tool_agent)
  /\ handle_tool_call Codec.loads Codec.dumps Codec.str
       (Examples.descriptor "Add" "[1, 2]") Examples.tool_agent
     = (Raise (PyException "TypeError"
                 "tools.calculator.add() argument after ** must be a mapping, not list"),
        Examples.tool_agent)
  /\ List.length
       (tool_call_logs
          (snd (handle_tool_call Codec.loads Codec.dumps Codec.str
                  (Examples.descriptor "Explode" "{}") Examples.tool_agent)))
     <> S (List.length (tool_call_logs Examples.tool_agent)).
Proof.
  repeat split. vm_compute. discriminate.
Qed.

(** C9, amended. Given a descriptor that names a tool the registry does not
    have and whose [arguments] are a string or are missing,
    [handle_tool_call] returns the placeholder text that names the tool and
    appends one record whose destination is that name and whose response is
    the placeholder.  Called twice with the same descriptor it returns the
    same placeholder twice and has appended exactly two records, equal to
    one another. *)
Theorem missing_tool_gets_placeholder
    (json_loads : string -> option pyval) (json_dumps : pyval -> string)
    (str_other : pyval -> string) (tool_call function_data : dict)
    (name text : string) (self : RemoteAgent) :
  dict_get tool_call "function" = Some (PDict function_data) ->
  dict_get function_data "name" = Some (PStr name) ->
  arguments_text function_data = Some text ->
  resolve self (PStr name) = None ->
  let dispatch := handle_tool_call json_loads json_dumps str_other in
  let record :=
    tool_call_record (agent_name self) (PStr name)
      (json_dumps (decoded_arguments json_loads text))
      (PStr (not_found name)) in
  dispatch tool_call self
  = (Return (PStr (not_found name)),
     set_tool_call_logs (tool_call_logs self ++ [record]) self)
  /\ (first <- dispatch tool_call ;;
      second <- dispatch tool_call ;;
      ret (first, second)) self
     = (Return (PStr (not_found name), PStr (not_found name)),
        set_tool_call_logs (tool_call_logs self ++ [record; record]) self)
  /\ record_destination record = Some (PStr name)
  /\ record_response record = Some (PStr (not_found name)).
Proof.
  intros F N A R dispatch record.
  assert (Once : forall s,
            tool_registry s = tool_registry self ->
            agent_name s = agent_name self ->
            dispatch tool_call s
            = (Return (PStr (not_found name)),
               set_tool_call_logs (tool_call_logs s ++ [record]) s)).
  { intros s HR HN. unfold dispatch.
    rewrite (handle_tool_call_descriptor json_loads json_dumps str_other
               tool_call function_data (PStr name) text s F);
      [|now rewrite N|exact A].
    simpl. unfold resolve in *. rewrite HR, R. unfold record. now rewrite HN. }
  split; [|split; [|split; reflexivity]].
  - now apply Once.
  - unfold bind. rewrite (Once self); [|reflexivity|reflexivity].
    rewrite Once; [|reflexivity|reflexivity].
    unfold ret. simpl. now rewrite <- app_assoc.
Qed.

Lemma missing_tool_gets_placeholder_witness :
  let dispatch := handle_tool_call Codec.loads Codec.dumps Codec.str in
  let record :=
    tool_call_record "joke_agent" (PStr "Xyz") "{}"
      (PStr "[Tool 'Xyz' not found]") in
  (first <- dispatch (Examples.descriptor "Xyz" "{}") ;;
   second <- dispatch (Examples.descriptor "Xyz" "{}") ;;
   ret (first, second)) Examples.tool_agent
  = (Return (PStr "[Tool 'Xyz' not found]", PStr "[Tool 'Xyz' not found]"),
     set_tool_call_logs [record; record] Examples.tool_agent).
Proof.
  intros dispatch record.
  destruct (missing_tool_gets_placeholder Codec.loads Codec.dumps Codec.str
              (Examples.descriptor "Xyz" "{}")
              [("name", PStr "Xyz"); ("arguments", PStr "{}")]
              "Xyz" "{}" Examples.tool_agent
              eq_refl eq_refl eq_refl eq_refl) as [_ [H _]].
  exact H.
Defined.

(** C9 as stated fails: a descriptor that names the missing tool [Xyz] but
    whose [arguments] are [null] makes the call raise the [TypeError] of
    [json.loads] before the registry is asked, and nothing is logged. *)
Lemma missing_tool_with_null_arguments_raises :
  let tool_call :=
    [("function", PDict [("name", PStr "Xyz"); ("arguments", PNone)])] in
  resolve Examples.tool_agent (PStr "Xyz") = None
  /\ handle_tool_call Codec.loads Codec.dumps Codec.str tool_call
       Examples.tool_agent
     = (Raise (PyException "TypeError"
                 "the JSON object must be str, bytes or bytearray, not NoneType"),
        Examples.tool_agent)
  /\ fst (handle_tool_call Codec.loads Codec.dumps Codec.str tool_call
            Examples.tool_agent)
     <> Return (PStr (not_found "Xyz")).
Proof.
  repeat split. vm_compute. discriminate.
Qed.

(** ** Runs on concrete inputs *)

Example init_joke_agent :
  RemoteAgent_init Examples.joke_config = Return Examples.joke_agent.
Proof. reflexivity. Qed.

(** A stream without payload lines yields nothing and logs nothing. *)
Example run_empty_stream :
  run_stream
    (Examples.answers
       (Examples.stream_of [EmptyString; ": keep-alive"; "data: done"]))
    Codec.loads Examples.joke_agent "hello" []
  = (Return tt, fresh Examples.joke_agent).
Proof. reflexivity. Qed.

(** A payload that is not JSON is yielded as it is. *)
Example run_raw_payload :
  yielded
    (snd (run_stream
            (Examples.answers
               (Examples.stream_of ["data:  Why did the chicken  "]))
            Codec.loads Examples.joke_agent "hello" []))
  = ["Why did the chicken "].
Proof. reflexivity. Qed.

(** A payload that is JSON but not an object ends the stream with the
    error text of the [TypeError] it causes; the chunks before it stay. *)
Example run_number_payload :
  yielded
    (snd (run_stream
            (Examples.answers
               (Examples.stream_of [Examples.jq "data: {'content': 'Hi'}";
                      "data: 42";
                      Examples.jq "data: {'content': 'there'}"]))
            Codec.loads Examples.joke_agent "hello" []))
  = ["Hi "; "[RemoteAgent error: argument of type 'int' is not iterable]"].
Proof. reflexivity. Qed.

(** The arguments of a descriptor reach the tool by name. *)
Example run_add_tool :
  fst (handle_tool_call Codec.loads Codec.dumps Codec.str
         (Examples.descriptor "Add" (Examples.jq "{'b': 40, 'a': 2}"))
         Examples.tool_agent)
  = Return (PInt 42).
Proof. reflexivity. Qed.

(** Arguments that do not decode are taken as empty. *)
Example run_bad_arguments :
  map (fun entry => match entry with
                    | PDict d => dict_get d "Tool_call_Arguments"
                    | _ => None
                    end)
    (tool_call_logs
       (snd (handle_tool_call Codec.loads Codec.dumps Codec.str
               (Examples.descriptor "Xyz" "{not json")
               Examples.tool_agent)))
  = [Some (PStr "{}")].
Proof. reflexivity. Qed.

(** A server error other than 401 gives the generic sentinel with the
    message of [raise_for_status]. *)
Example run_server_error :
  fst (handle_message
         (Examples.answers
            (Examples.response_of 503 "Service Unavailable"
               (Examples.body "") Eof))
         "hello" [] Examples.joke_agent)
  = Return (PStr "[RemoteAgent error: 503 Server Error: Service Unavailable for url: http://localhost:8000/chat]").
Proof. reflexivity. Qed.

(** * Further properties *)

(** ** The health probe *)

(** X1. [setup] returns exactly when the probe of [{base}/health] gets a
    response whose status is not an HTTP error.  When the transport fails
    or the status is an HTTP error it raises [ConnectionError], whose
    message names the base address and holds the text of the failure; it
    never lets an [HTTPError] through, and it leaves the agent as it
    was. *)
Theorem setup_raises_connection_error
    (network_get : GetRequest -> outcome Response) (self : RemoteAgent) :
  (forall r,
     network_get (health_request self) = Return r ->
     ~ (400 <= status_code r < 600)%Z ->
     setup network_get self = (Return tt, self))
  /\ (forall r,
        network_get (health_request self) = Return r ->
        (400 <= status_code r < 600)%Z ->
        exists msg,
          raise_for_status r = Raise (HTTPError (status_code r) msg)
          /\ setup network_get self
             = (Raise (PyException "ConnectionError"
                         ("Failed to connect to remote agent at "
                          ++ base_url self ++ ": " ++ msg)),
                self))
  /\ (forall e,
        network_get (health_request self) = Raise e ->
        setup network_get self
        = (Raise (PyException "ConnectionError"
                    ("Failed to connect to remote agent at "
                     ++ base_url self ++ ": " ++ str_exn e)),
           self))
  /\ (forall o self',
        setup network_get self = (o, self') ->
        self' = self /\ forall code msg, o <> Raise (HTTPError code msg)).
Proof.
  assert (Ok : forall r,
            network_get (health_request self) = Return r ->
            raise_for_status r = Return tt ->
            setup network_get self = (Return tt, self)).
  { intros r N S.
    unfold setup, try_except, setup_try, bind, lift, get_state, session_get.
    fold (health_request self). now rewrite N, S. }
  assert (Bad : forall r e,
            network_get (health_request self) = Return r ->
            raise_for_status r = Raise e ->
            setup network_get self
            = (Raise (PyException "ConnectionError"
                        ("Failed to connect to remote agent at "
                         ++ base_url self ++ ": " ++ str_exn e)), self)).
  { intros r e N S.
    unfold setup, try_except, setup_try, bind, lift, get_state, session_get.
    fold (health_request self). now rewrite N, S. }
  assert (Refused : forall e,
            network_get (health_request self) = Raise e ->
            setup network_get self
            = (Raise (PyException "ConnectionError"
                        ("Failed to connect to remote agent at "
                         ++ base_url self ++ ": " ++ str_exn e)), self)).
  { intros e N.
    unfold setup, try_except, setup_try, bind, lift, get_state, session_get.
    fold (health_request self). now rewrite N. }
  repeat apply conj.
  - intros r N C. apply (Ok r N). now apply raise_for_status_ok.
  - intros r N C. destruct (raise_for_status_error r C) as [msg [S _]].
    exists msg. split; [exact S|]. now rewrite (Bad r _ N S).
  - exact Refused.
  - intros o self' H.
    destruct (network_get (health_request self)) as [r|e] eqn:N.
    + destruct (raise_for_status_cases r) as [S|[msg S]].
      * rewrite (Ok r eq_refl S) in H. inversion H; subst.
        split; [reflexivity|discriminate].
      * rewrite (Bad r _ eq_refl S) in H. inversion H; subst.
        split; [reflexivity|discriminate].
    + rewrite (Refused e eq_refl) in H. inversion H; subst.
      split; [reflexivity|discriminate].
Qed.

Lemma setup_raises_connection_error_witness :
  setup (get_answers unavailable) Examples.joke_agent
  = (Raise (PyException "ConnectionError"
              "Failed to connect to remote agent at http://localhost:8000: 503 Server Error: Service Unavailable for url: http://localhost:8000/health"),
     Examples.joke_agent).
Proof.
  destruct (setup_raises_connection_error (get_answers unavailable)
              Examples.joke_agent) as [_ [H _]].
  destruct (H _ eq_refl ltac:(simpl; lia)) as [msg [S E]].
  vm_compute in S. inversion S; subst msg. exact E.
Defined.

(** ** What the methods leave alone *)


Lemma set_tool_call_logs_twice (l1 l2 : list pyval) (self : RemoteAgent) :
  set_tool_call_logs l2 (set_tool_call_logs l1 self)
  = set_tool_call_logs l2 self.
Proof. reflexivity. Qed.

Lemma handle_message_appends
    (network : Request -> outcome Response) (message : string)
    (kwargs : dict) (self : RemoteAgent) :
  exists items,
    snd (handle_message network message kwargs self)
    = set_tool_call_logs (tool_call_logs self ++ items) self.
Proof.
  assert (Same : self = set_tool_call_logs (tool_call_logs self ++ []) self)
    by now rewrite app_nil_r, set_tool_call_logs_same.
  destruct (handle_message_try network message kwargs self)
    as [[v|e] s1] eqn:T.
  - rewrite (handle_message_no_handler _ _ _ _ _ _ T). simpl.
    destruct (network (chat_request self message kwargs)) as [r|e0] eqn:N;
      [|rewrite (handle_message_try_refused _ _ _ _ _ N) in T; discriminate].
    destruct (raise_for_status_cases r) as [S|[msg S]];
      [|rewrite (handle_message_try_status _ _ _ _ r _ N S) in T;
        discriminate].
    rewrite (handle_message_try_answered _ _ _ _ r N S) in T.
    destruct (json r) as [j|e1]; [|discriminate].
    destruct (py_get j "response" (PStr EmptyString)) as [res|e1];
      [|discriminate].
    destruct (py_get j "tool_calls" (PList [])) as [tc|e1]; [|discriminate].
    destruct (truthy tc).
    + destruct (py_iter tc) as [items|e1]; [|discriminate].
      inversion T; subst. now exists items.
    + inversion T; subst. now exists [].
  - rewrite (handle_message_handler _ _ _ _ _ _ T). simpl.
    apply handle_message_try_raise_state in T. subst s1. now exists [].
Qed.

Lemma handle_tool_call_appends
    (json_loads : string -> option pyval) (json_dumps : pyval -> string)
    (str_other : pyval -> string) (tool_call : dict) (self : RemoteAgent) :
  exists items,
    snd (handle_tool_call json_loads json_dumps str_other tool_call self)
    = set_tool_call_logs (tool_call_logs self ++ items) self
    /\ (List.length items <= 1)%nat.
Proof.
  destruct (handle_tool_call_cases json_loads json_dumps str_other
              tool_call self) as [[v [name [arguments E]]]|[e E]];
    rewrite E; simpl.
  - eexists. split; [reflexivity|simpl; lia].
  - exists []. split; [|simpl; lia].
    now rewrite app_nil_r, set_tool_call_logs_same.
Qed.

(** X2. The synchronous calls only ever append to the call log: after
    [handle_message] and after [handle_tool_call] the agent is the agent
    before with more entries at the end of its log (at most one for
    [handle_tool_call]), so what a first send logged is still there, in
    front, after a second one. *)
Theorem synchronous_calls_only_append
    (network : Request -> outcome Response)
    (json_loads : string -> option pyval) (json_dumps : pyval -> string)
    (str_other : pyval -> string) (message : string) (kwargs : dict)
    (tool_call : dict) (self : RemoteAgent) :
  (exists items,
     snd (handle_message network message kwargs self)
     = set_tool_call_logs (tool_call_logs self ++ items) self)
  /\ (exists items,
        snd (handle_tool_call json_loads json_dumps str_other tool_call self)
        = set_tool_call_logs (tool_call_logs self ++ items) self
        /\ (List.length items <= 1)%nat)
  /\ (forall message' kwargs',
        exists first second,
          snd (handle_message network message kwargs self)
          = set_tool_call_logs (tool_call_logs self ++ first) self
          /\ snd (handle_message network message' kwargs'
                    (snd (handle_message network message kwargs self)))
             = set_tool_call_logs (tool_call_logs self ++ first ++ second)
                 self).
Proof.
  split; [apply handle_message_appends|].
  split; [apply handle_tool_call_appends|].
  intros message' kwargs'.
  destruct (handle_message_appends network message kwargs self)
    as [first E1].
  destruct (handle_message_appends network message' kwargs'
              (snd (handle_message network message kwargs self)))
    as [second E2].
  exists first, second. split; [exact E1|].
  rewrite E2, E1. simpl. now rewrite <- app_assoc.
Qed.

Lemma synchronous_calls_only_append_witness :
  exists first second,
    snd (handle_message (Examples.answers Examples.store_reply)
           "hello" [] Examples.joke_agent)
    = set_tool_call_logs first Examples.joke_agent
    /\ snd (handle_message (Examples.answers Examples.store_reply)
              "again" []
              (snd (handle_message (Examples.answers Examples.store_reply)
                      "hello" [] Examples.joke_agent)))
       = set_tool_call_logs (first ++ second) Examples.joke_agent.
Proof.
  destruct (synchronous_calls_only_append
              (Examples.answers Examples.store_reply)
              Codec.loads Codec.dumps Codec.str "hello" []
              (Examples.descriptor "Xyz" "{}") Examples.joke_agent)
    as [_ [_ H]].
  destruct (H "again" []) as [first [second [E1 E2]]].
  exists first, second. split; [exact E1|exact E2].
Defined.







(** ** The synchronous send on bodies of other shapes *)

(** X4. When the response is not an HTTP error but its body does not
    decode, or decodes to something that is not an object, [handle_message]
    returns the generic sentinel ([str] of the decoding error, or of the
    [AttributeError] for the missing [get]) and leaves the agent as it
    was. *)
Theorem malformed_body_gives_sentinel
    (network : Request -> outcome Response) (message : string)
    (kwargs : dict) (self : RemoteAgent) (r : Response) :
  network (chat_request self message kwargs) = Return r ->
  ~ (400 <= status_code r < 600)%Z ->
  (forall cls msg,
     json r = Raise (PyException cls msg) ->
     handle_message network message kwargs self
     = (Return (PStr ("[RemoteAgent error: " ++ msg ++ "]")), self))
  /\ (forall v,
        json r = Return v -> is_object v = false ->
        handle_message network message kwargs self
        = (Return (PStr ("[RemoteAgent error: '" ++ type_name v
                         ++ "' object has no attribute 'get']")),
           self)).
Proof.
  intros N C.
  pose proof (handle_message_try_answered network message kwargs self r N
                (raise_for_status_ok r C)) as T.
  split.
  - intros cls msg J. rewrite J in T.
    now rewrite (handle_message_handler _ _ _ _ _ _ T).
  - intros v J O. rewrite J in T.
    destruct v; try discriminate; simpl in T;
      now rewrite (handle_message_handler _ _ _ _ _ _ T).
Qed.

Lemma malformed_body_gives_sentinel_witness :
  handle_message
    (Examples.answers
       (Examples.response_of 200 "OK" (Examples.body "[1, 2]") Eof))
    "hello" [] Examples.joke_agent
  = (Return (PStr "[RemoteAgent error: 'list' object has no attribute 'get']"),
     Examples.joke_agent).
Proof.
  destruct (malformed_body_gives_sentinel
              (Examples.answers
                 (Examples.response_of 200 "OK" (Examples.body "[1, 2]") Eof))
              "hello" [] Examples.joke_agent
              (Examples.response_of 200 "OK" (Examples.body "[1, 2]") Eof)
              eq_refl ltac:(simpl; lia)) as [_ H].
  exact (H (PList [PInt 1; PInt 2]) eq_refl eq_refl).
Defined.

(** X5. A [tool_calls] field that is false as a condition ([null], [false],
    [0], the empty string, list or object) is not logged: the call returns
    the [response] field and the agent is exactly as before. *)
Theorem falsy_tool_calls_log_nothing
    (network : Request -> outcome Response) (message : string)
    (kwargs : dict) (self : RemoteAgent) (r : Response) (d : dict)
    (tool_calls : pyval) :
  network (chat_request self message kwargs) = Return r ->
  ~ (400 <= status_code r < 600)%Z ->
  json r = Return (PDict d) ->
  dict_get d "tool_calls" = Some tool_calls ->
  truthy tool_calls = false ->
  handle_message network message kwargs self
  = (Return (response_of_body d), self).
Proof.
  intros N C J G F.
  apply handle_message_no_handler.
  rewrite (handle_message_try_answered _ _ _ _ r N (raise_for_status_ok r C)).
  rewrite J. simpl. rewrite G, F. reflexivity.
Qed.

Lemma falsy_tool_calls_log_nothing_witness :
  handle_message
    (Examples.answers
       (Examples.response_of 200 "OK"
          (Examples.body (Examples.jq "{'response': 'Hi', 'tool_calls': null}"))
          Eof))
    "hello" [] Examples.joke_agent
  = (Return (PStr "Hi"), Examples.joke_agent).
Proof.
  exact (falsy_tool_calls_log_nothing
           (Examples.answers
              (Examples.response_of 200 "OK"
                 (Examples.body
                    (Examples.jq "{'response': 'Hi', 'tool_calls': null}"))
                 Eof))
           "hello" [] Examples.joke_agent
           (Examples.response_of 200 "OK"
              (Examples.body
                 (Examples.jq "{'response': 'Hi', 'tool_calls': null}"))
              Eof)
           [("response", PStr "Hi"); ("tool_calls", PNone)] PNone
           eq_refl ltac:(simpl; lia) eq_refl eq_refl eq_refl).
Defined.

(** X6. A [tool_calls] field that is true as a condition but is not a list
    is handed to [extend] all the same.  A number or [true] cannot be
    iterated: the call returns the sentinel of that [TypeError] instead of
    the [response] text, and logs nothing.  A string is logged character by
    character and an object key by key, and the [response] field is
    returned. *)
Theorem non_list_tool_calls
    (network : Request -> outcome Response) (message : string)
    (kwargs : dict) (self : RemoteAgent) (r : Response) (d : dict)
    (tool_calls : pyval) :
  network (chat_request self message kwargs) = Return r ->
  ~ (400 <= status_code r < 600)%Z ->
  json r = Return (PDict d) ->
  dict_get d "tool_calls" = Some tool_calls ->
  truthy tool_calls = true ->
  (not_iterable tool_calls = true ->
   handle_message network message kwargs self
   = (Return (PStr ("[RemoteAgent error: '" ++ type_name tool_calls
                    ++ "' object is not iterable]")),
      self))
  /\ (forall text,
        tool_calls = PStr text ->
        handle_message network message kwargs self
        = (Return (response_of_body d),
           set_tool_call_logs
             (tool_call_logs self ++ map PStr (str_chars text)) self))
  /\ (forall entries,
        tool_calls = PDict entries ->
        handle_message network message kwargs self
        = (Return (response_of_body d),
           set_tool_call_logs
             (tool_call_logs self ++ map PStr (dict_keys entries)) self)).
Proof.
  intros N C J G T.
  pose proof (handle_message_try_answered network message kwargs self r N
                (raise_for_status_ok r C)) as A.
  rewrite J in A. simpl in A. rewrite G, T in A.
  repeat apply conj.
  - intros I. destruct tool_calls; try discriminate; simpl in A;
      now rewrite (handle_message_handler _ _ _ _ _ _ A).
  - intros text ->. simpl in A.
    now rewrite (handle_message_no_handler _ _ _ _ _ _ A).
  - intros entries ->. simpl in A.
    now rewrite (handle_message_no_handler _ _ _ _ _ _ A).
Qed.

Lemma non_list_tool_calls_witness :
  handle_message
    (Examples.answers
       (Examples.response_of 200 "OK"
          (Examples.body (Examples.jq "{'response': 'Hi', 'tool_calls': 'ab'}"))
          Eof))
    "hello" [] Examples.joke_agent
  = (Return (PStr "Hi"),
     set_tool_call_logs [PStr "a"; PStr "b"] Examples.joke_agent).
Proof.
  destruct (non_list_tool_calls
              (Examples.answers
                 (Examples.response_of 200 "OK"
                    (Examples.body
                       (Examples.jq "{'response': 'Hi', 'tool_calls': 'ab'}"))
                    Eof))
              "hello" [] Examples.joke_agent
              (Examples.response_of 200 "OK"
                 (Examples.body
                    (Examples.jq "{'response': 'Hi', 'tool_calls': 'ab'}"))
                 Eof)
              [("response", PStr "Hi"); ("tool_calls", PStr "ab")] (PStr "ab")
              eq_refl ltac:(simpl; lia) eq_refl eq_refl eq_refl)
    as [_ [H _]].
  exact (H "ab" eq_refl).
Defined.

(** ** The payload of a send *)

Lemma dict_get_set (d : dict) (k k' : string) (v : pyval) :
  dict_get (dict_set d k v) k'
  = if (k =? k')%string then Some v else dict_get d k'.
Proof.
  induction d as [|[k0 v0] d IH]; simpl.
  - reflexivity.
  - destruct (k0 =? k)%string eqn:E0; simpl.
    + apply String.eqb_eq in E0. subst k0.
      now destruct (k =? k')%string.
    + rewrite IH. destruct (k0 =? k')%string eqn:E1; [|reflexivity].
      apply String.eqb_eq in E1. subst k0.
      rewrite String.eqb_sym in E0. now rewrite E0.
Qed.

Lemma dict_get_absent (d : dict) (k : string) :
  ~ In k (dict_keys d) -> dict_get d k = None.
Proof.
  induction d as [|[k0 v0] d IH]; simpl; [reflexivity|].
  intros H. destruct (k0 =? k)%string eqn:E.
  - apply String.eqb_eq in E. tauto.
  - apply IH. tauto.
Qed.

(** Lookup in [{**d1, **d2}]: the entry of [d2] if it has one, else that of
    [d1]. *)
Lemma dict_get_update (d2 : dict) :
  NoDup (dict_keys d2) ->
  forall d1 k,
    dict_get (dict_update d1 d2) k
    = match dict_get d2 k with
      | Some v => Some v
      | None => dict_get d1 k
      end.
Proof.
  unfold dict_update.
  induction d2 as [|[k0 v0] d2 IH]; intros U d1 k; simpl; [reflexivity|].
  inversion U as [|x l NI U']; subst.
  rewrite (IH U'). rewrite dict_get_set.
  destruct (k0 =? k)%string eqn:E.
  - apply String.eqb_eq in E. subst k0.
    now rewrite (dict_get_absent d2 k NI).
  - reflexivity.
Qed.

(** X7. The payload of a send is an object that always has [message] and
    [thread_id]: [thread_id] is the keyword argument of that name, or
    [None] when the caller gave none, and every keyword argument is in the
    payload under its own name with its own value; nothing else is. *)
Theorem payload_carries_the_arguments (message : string) (kwargs : dict) :
  NoDup (dict_keys kwargs) ->
  dict_get kwargs "message" = None ->
  exists d,
    payload message kwargs = PDict d
    /\ dict_get d "message" = Some (PStr message)
    /\ dict_get d "thread_id"
       = Some (match dict_get kwargs "thread_id" with
               | Some t => t
               | None => PNone
               end)
    /\ (forall k v, dict_get kwargs k = Some v -> dict_get d k = Some v)
    /\ (forall k,
          k <> "message" -> k <> "thread_id" ->
          dict_get d k = dict_get kwargs k).
Proof.
  intros U NM. eexists. split; [reflexivity|].
  repeat apply conj.
  - rewrite (dict_get_update kwargs U). now rewrite NM.
  - rewrite (dict_get_update kwargs U).
    now destruct (dict_get kwargs "thread_id").
  - intros k v G. rewrite (dict_get_update kwargs U). now rewrite G.
  - intros k K1 K2. rewrite (dict_get_update kwargs U).
    destruct (dict_get kwargs k); [reflexivity|]. cbn [dict_get].
    apply not_eq_sym in K1. apply not_eq_sym in K2.
    apply String.eqb_neq in K1. apply String.eqb_neq in K2.
    now rewrite K1, K2.
Qed.

Lemma payload_carries_the_arguments_witness :
  exists d,
    payload "hello" [("user", PStr "Alice"); ("thread_id", PStr "t1")]
    = PDict d
    /\ dict_get d "message" = Some (PStr "hello")
    /\ dict_get d "thread_id" = Some (PStr "t1")
    /\ dict_get d "user" = Some (PStr "Alice").
Proof.
  destruct (payload_carries_the_arguments "hello"
              [("user", PStr "Alice"); ("thread_id", PStr "t1")])
    as [d [P [M [T [K _]]]]].
  - repeat constructor; simpl; intuition discriminate.
  - reflexivity.
  - exists d. repeat split; try assumption. now apply K.
Defined.

(** ** The streaming send on other lines *)

Lemma list_ascii_of_string_app (a b : string) :
  list_ascii_of_string (a ++ b)
  = (list_ascii_of_string a ++ list_ascii_of_string b)%list.
Proof.
  induction a as [|c a IH]; simpl; [reflexivity|]. now rewrite IH.
Qed.

Lemma endswith_join_space (text : string) : endswith " " (text ++ " ") = true.
Proof.
  unfold endswith. rewrite list_ascii_of_string_app, rev_app_distr.
  reflexivity.
Qed.

Lemma payload_of_content (line content : string) :
  payload_of line = Some content -> content = strip (str_drop 5 line).
Proof.
  unfold payload_of.
  destruct (negb (line =? "")%string && startswith "data:" line);
    [|discriminate].
  destruct (negb (strip (str_drop 5 line) =? "")%string
            && negb (strip (str_drop 5 line) =? "done")%string);
    [|discriminate].
  congruence.
Qed.

Lemma raise_for_status_with_lines (r : Response) (lines : line_iter) :
  raise_for_status (with_lines r lines) = raise_for_status r.
Proof. reflexivity. Qed.

Section StreamLines.

Variable json_loads : string -> option pyval.

Lemma stream_loop_payload_lines (lines : line_iter) :
  forall current_text g,
    stream_loop json_loads (payload_lines lines) current_text g
    = stream_loop json_loads lines current_text g.
Proof.
  induction lines as [|line rest IH|e]; intros current_text g;
    [reflexivity| |reflexivity].
  cbn [payload_lines]. rewrite (stream_loop_line json_loads line rest).
  destruct (payload_of line) as [content|] eqn:P; [|apply IH].
  rewrite stream_loop_line, P.
  destruct (classify json_loads content current_text g) as [[text|e] g'];
    [apply IH|reflexivity].
Qed.

(** The chunks of the loop: each ends with the join space, and a loop that
    ends normally has yielded one for each payload line. *)
Lemma stream_loop_chunks (lines : line_iter) :
  forall g o g',
    stream_loop json_loads lines EmptyString g = (o, g') ->
    exists chunks,
      yielded g' = (yielded g ++ chunks)%list
      /\ Forall (fun chunk => endswith " " chunk = true) chunks
      /\ (List.length chunks <= count_payloads lines)%nat
      /\ (forall text, o = Return text ->
                       List.length chunks = count_payloads lines).
Proof.
  induction lines as [|line rest IH|e]; intros g o g'.
  - simpl. unfold ret. intros E; inversion E; subst.
    exists []. rewrite app_nil_r.
    split; [reflexivity|split; [constructor|split; [simpl; lia|reflexivity]]].
  - rewrite stream_loop_line. cbn [count_payloads].
    destruct (payload_of line) as [content|]; [|apply IH].
    destruct (classify json_loads content EmptyString g)
      as [[text|e] g1] eqn:C; apply classify_output in C as [Y _].
    + intros E. apply IH in E as [chunks [Y' [F [L L']]]].
      exists ((text ++ " ") :: chunks). simpl in Y'.
      rewrite Y, <- app_assoc in Y'. simpl in Y'.
      split; [exact Y'|].
      split; [constructor; [apply endswith_join_space|exact F]|].
      split; [simpl; lia|].
      intros t Ht. simpl. f_equal. now apply (L' t).
    + intros E; inversion E; subst.
      exists []. rewrite app_nil_r.
      split; [congruence|split; [constructor|split; [simpl; lia|discriminate]]].
  - simpl. unfold lift. intros E; inversion E; subst.
    exists []. rewrite app_nil_r.
    split; [reflexivity|split; [constructor|split; [simpl; lia|discriminate]]].
Qed.

End StreamLines.

(** X8. The streaming send passes over every line that is empty, does not
    begin with [data:], or whose payload, stripped, is empty or [done]:
    the run on a response is the run on the same response with those lines
    taken out of its body. *)
Theorem stream_passes_over_other_lines
    (network : Request -> outcome Response)
    (json_loads : string -> option pyval) (message : string) (kwargs : dict)
    (self : RemoteAgent) (r : Response) :
  network (stream_request self message kwargs) = Return r ->
  run_stream network json_loads self message kwargs
  = run_stream
      (fun _ => Return (with_lines r (payload_lines (iter_lines r))))
      json_loads self message kwargs.
Proof.
  intros N. rewrite !run_stream_fresh.
  unfold handle_message_stream, try_except.
  destruct (raise_for_status_cases r) as [S|[msg S]].
  - rewrite (stream_try_opened network json_loads message kwargs
               (fresh self) r N S).
    rewrite (stream_try_opened
               (fun _ => Return (with_lines r (payload_lines (iter_lines r))))
               json_loads message kwargs (fresh self)
               (with_lines r (payload_lines (iter_lines r))) eq_refl S).
    simpl iter_lines. now rewrite stream_loop_payload_lines.
  - rewrite (stream_try_status network json_loads message kwargs
               (fresh self) r _ N S).
    now rewrite (stream_try_status
                   (fun _ => Return (with_lines r (payload_lines (iter_lines r))))
                   json_loads message kwargs (fresh self)
                   (with_lines r (payload_lines (iter_lines r))) _ eq_refl S).
Qed.

Lemma stream_passes_over_other_lines_witness :
  run_stream (Examples.answers (Examples.stream_of Examples.joke_lines))
    Codec.loads Examples.joke_agent "hello" []
  = run_stream
      (Examples.answers
         (Examples.stream_of
            [Examples.jq "data: {'content': 'Why did'}";
             Examples.jq "data:{'content': ' the chicken'}"]))
      Codec.loads Examples.joke_agent "hello" [].
Proof.
  exact (stream_passes_over_other_lines
           (Examples.answers (Examples.stream_of Examples.joke_lines))
           Codec.loads "hello" [] Examples.joke_agent
           (Examples.stream_of Examples.joke_lines) eq_refl).
Defined.

(** X9. Whatever the lines are, every chunk the [try] of the streaming
    send yields ends with the join space, and there is at most one for
    each payload line.  When the [try] ends without an exception there is
    exactly one for each payload line: the flush written after the loop
    never yields. *)
Theorem stream_chunks_end_with_space
    (network : Request -> outcome Response)
    (json_loads : string -> option pyval) (message : string) (kwargs : dict)
    (self : RemoteAgent) (r : Response) (o : outcome unit) (g : Gen) :
  network (stream_request self message kwargs) = Return r ->
  handle_message_stream_try network json_loads message kwargs (fresh self)
  = (o, g) ->
  Forall (fun chunk => endswith " " chunk = true) (yielded g)
  /\ (List.length (yielded g) <= count_payloads (iter_lines r))%nat
  /\ (o = Return tt ->
      List.length (yielded g) = count_payloads (iter_lines r)).
Proof.
  intros N T.
  destruct (raise_for_status_cases r) as [S|[msg S]].
  - rewrite (stream_try_opened network json_loads message kwargs
               (fresh self) r N S) in T.
    destruct (stream_loop json_loads (iter_lines r) EmptyString
                (reset_logs (fresh self))) as [o' g'] eqn:L.
    apply stream_loop_chunks in L as [chunks [Y [F [L1 L2]]]].
    simpl in Y. rewrite <- Y in F, L1, L2.
    destruct o' as [text|e]; inversion T; subst.
    + split; [exact F|split; [exact L1|]]. intros _. now apply (L2 text).
    + split; [exact F|split; [exact L1|discriminate]].
  - rewrite (stream_try_status network json_loads message kwargs
               (fresh self) r _ N S) in T.
    inversion T; subst. simpl.
    split; [constructor|split; [lia|discriminate]].
Qed.

Lemma stream_chunks_end_with_space_witness :
  let g :=
    snd (handle_message_stream_try
           (Examples.answers (Examples.stream_of Examples.joke_lines))
           Codec.loads "hello" [] (fresh Examples.joke_agent)) in
  Forall (fun chunk => endswith " " chunk = true) (yielded g)
  /\ List.length (yielded g) = 2%nat.
Proof.
  intros g.
  destruct (stream_chunks_end_with_space
              (Examples.answers (Examples.stream_of Examples.joke_lines))
              Codec.loads "hello" [] Examples.joke_agent
              (Examples.stream_of Examples.joke_lines) (Return tt) g
              eq_refl eq_refl) as [F [_ L]].
  split; [exact F|exact (L eq_refl)].
Defined.

(** X10. A payload that does not decode as JSON is yielded as it is:
    on an opened stream whose lines are all such payloads, the chunks are
    the payloads, stripped, each with the join space, and nothing is
    logged. *)
Theorem raw_payloads_are_yielded
    (network : Request -> outcome Response)
    (json_loads : string -> option pyval) (message : string) (kwargs : dict)
    (self : RemoteAgent) (r : Response) (ls : list string) :
  network (stream_request self message kwargs) = Return r ->
  ~ (400 <= status_code r < 600)%Z ->
  iter_lines r = Examples.lines_of ls ->
  (forall line, In line ls ->
                exists content,
                  payload_of line = Some content
                  /\ json_loads content = None) ->
  run_stream network json_loads self message kwargs
  = (Return tt,
     {| gen_self := set_tool_call_logs [] self;
        yielded := map (fun line => strip (str_drop 5 line) ++ " ") ls;
        printed := [] |}).
Proof.
  intros N C L R.
  apply (run_stream_trace network json_loads message kwargs self r
           (map (fun line => strip (str_drop 5 line) ++ " ") ls) [] None N C).
  rewrite L. clear L N C.
  induction ls as [|line ls IH]; cbn [map Examples.lines_of]; [constructor|].
  destruct (R line (or_introl eq_refl)) as [content [P J]].
  rewrite <- (payload_of_content line content P).
  apply trace_raw.
  - unfold fragment_of. now rewrite P, J.
  - apply IH. intros l Hl. apply R. now right.
Qed.

Lemma raw_payloads_are_yielded_witness :
  run_stream
    (Examples.answers
       (Examples.stream_of ["data:  Why did the chicken  "; "data: cross?"]))
    Codec.loads Examples.joke_agent "hello" []
  = (Return tt,
     {| gen_self := Examples.joke_agent;
        yielded := ["Why did the chicken "; "cross? "];
        printed := [] |}).
Proof.
  refine (raw_payloads_are_yielded
            (Examples.answers
               (Examples.stream_of
                  ["data:  Why did the chicken  "; "data: cross?"]))
            Codec.loads "hello" [] Examples.joke_agent
            (Examples.stream_of
               ["data:  Why did the chicken  "; "data: cross?"])
            ["data:  Why did the chicken  "; "data: cross?"]
            eq_refl _ eq_refl _).
  - simpl. lia.
  - intros line [<-|[<-|[]]];
      [exists "Why did the chicken"|exists "cross?"];
      split; vm_compute; reflexivity.
Defined.

(** X11. A payload that decodes to JSON that is not an object ends the
    stream: the loop raises a [TypeError] or an [AttributeError] at that
    line, with nothing yielded or logged for it, and no later line is
    read, so the run is the same whatever follows the line. *)
Theorem non_object_payload_ends_the_stream
    (json_loads : string -> option pyval) (line content : string)
    (v : pyval) (g : Gen) :
  payload_of line = Some content ->
  json_loads content = Some v ->
  is_object v = false ->
  exists cls msg,
    (cls = "TypeError" \/ cls = "AttributeError")
    /\ forall rest,
         stream_loop json_loads (Line line rest) EmptyString g
         = (Raise (PyException cls msg), g).
Proof.
  intros P J O.
  assert (H : exists cls msg,
            (cls = "TypeError" \/ cls = "AttributeError")
            /\ classify json_loads content EmptyString g
               = (Raise (PyException cls msg), g)).
  { unfold classify. rewrite J. unfold bind, lift.
    destruct v as [| | | |text|items|]; try discriminate; simpl;
      try (do 2 eexists; split; [left; reflexivity|reflexivity]).
    - destruct (str_contains "tool_calls" text);
        do 2 eexists; split;
          try reflexivity; [left|right]; reflexivity.
    - destruct (existsb _ items);
        do 2 eexists; split;
          try reflexivity; [left|right]; reflexivity. }
  destruct H as [cls [msg [K C]]].
  exists cls, msg. split; [exact K|].
  intros rest. rewrite stream_loop_line, P, C. reflexivity.
Qed.

Lemma non_object_payload_ends_the_stream_witness :
  exists cls msg,
    (cls = "TypeError" \/ cls = "AttributeError")
    /\ forall rest,
         stream_loop Codec.loads (Line "data: 42" rest) EmptyString
           (fresh Examples.joke_agent)
         = (Raise (PyException cls msg), fresh Examples.joke_agent).
Proof.
  exact (non_object_payload_ends_the_stream Codec.loads "data: 42" "42"
           (PInt 42) (fresh Examples.joke_agent) eq_refl eq_refl eq_refl).
Defined.

(** ** The tool dispatcher on other descriptors *)

(** X12. The arguments of a descriptor are read tolerantly only as far as
    decoding goes.  A text that does not decode is taken as the empty
    object: the tool, if found, is called without arguments and the record
    holds the text of the empty object.  A value that is not a string is
    not tolerated: [json.loads] raises [TypeError], which leaves the call,
    and nothing is logged. *)
Theorem arguments_are_decoded_tolerantly
    (json_loads : string -> option pyval) (json_dumps : pyval -> string)
    (str_other : pyval -> string) (tool_call function_data : dict)
    (name : string) (self : RemoteAgent) :
  dict_get tool_call "function" = Some (PDict function_data) ->
  dict_get function_data "name" = Some (PStr name) ->
  (forall text,
     arguments_text function_data = Some text ->
     json_loads text = None ->
     handle_tool_call json_loads json_dumps str_other tool_call self
     = let logged result :=
         set_tool_call_logs
           (tool_call_logs self
            ++ [tool_call_record (agent_name self) (PStr name)
                  (json_dumps (PDict [])) result])
           self in
       match resolve self (PStr name) with
       | Some t =>
           match function t [] with
           | Return result => (Return result, logged result)
           | Raise e => (Raise e, self)
           end
       | None => (Return (PStr (not_found name)),
                  logged (PStr (not_found name)))
       end)
  /\ (forall arguments,
        dict_get function_data "arguments" = Some arguments ->
        (forall text, arguments <> PStr text) ->
        handle_tool_call json_loads json_dumps str_other tool_call self
        = (Raise (PyException "TypeError"
                    ("the JSON object must be str, bytes or bytearray, not "
                     ++ type_name arguments)),
           self)).
Proof.
  intros F N. split.
  - intros text A J.
    rewrite (handle_tool_call_descriptor json_loads json_dumps str_other
               tool_call function_data (PStr name) text self F);
      [|now rewrite N|exact A].
    unfold decoded_arguments. rewrite J. simpl.
    destruct (resolve self (PStr name)); reflexivity.
  - intros arguments A NS.
    unfold handle_tool_call, bind, lift, get_state. rewrite F.
    unfold py_get. rewrite N, A.
    destruct arguments; try reflexivity. now destruct (NS s).
Qed.

Lemma arguments_are_decoded_tolerantly_witness :
  handle_tool_call Codec.loads Codec.dumps Codec.str
    [("function",
      PDict [("name", PStr "Add");
             ("arguments", PDict [("a", PInt 1); ("b", PInt 2)])])]
    Examples.tool_agent
  = (Raise (PyException "TypeError"
              "the JSON object must be str, bytes or bytearray, not dict"),
     Examples.tool_agent).
Proof.
  destruct (arguments_are_decoded_tolerantly Codec.loads Codec.dumps Codec.str
              [("function",
                PDict [("name", PStr "Add");
                       ("arguments", PDict [("a", PInt 1); ("b", PInt 2)])])]
              [("name", PStr "Add");
               ("arguments", PDict [("a", PInt 1); ("b", PInt 2)])]
              "Add" Examples.tool_agent eq_refl eq_refl) as [_ H].
  apply (H (PDict [("a", PInt 1); ("b", PInt 2)]) eq_refl).
  intros text. discriminate.
Defined.

(** X13. When the registry has the tool and the arguments decode to an
    object, the function of the tool is called with exactly that object.
    If it returns, its value is returned and logged as the response, with
    the arguments as [json.dumps] writes them; if it raises, the exception
    leaves the call as it is and nothing is logged.  When the arguments
    decode to something that is not an object the function is not called:
    the unpacking raises [TypeError]. *)
Theorem found_tool_gets_the_decoded_arguments
    (json_loads : string -> option pyval) (json_dumps : pyval -> string)
    (str_other : pyval -> string) (tool_call function_data : dict)
    (name text : string) (t : Tool) (args : pyval) (self : RemoteAgent) :
  dict_get tool_call "function" = Some (PDict function_data) ->
  dict_get function_data "name" = Some (PStr name) ->
  arguments_text function_data = Some text ->
  resolve self (PStr name) = Some t ->
  json_loads text = Some args ->
  (forall d result,
     args = PDict d -> function t d = Return result ->
     handle_tool_call json_loads json_dumps str_other tool_call self
     = (Return result,
        set_tool_call_logs
          (tool_call_logs self
           ++ [tool_call_record (agent_name self) (PStr name)
                 (json_dumps (PDict d)) result])
          self))
  /\ (forall d e,
        args = PDict d -> function t d = Raise e ->
        handle_tool_call json_loads json_dumps str_other tool_call self
        = (Raise e, self))
  /\ (is_object args = false ->
      handle_tool_call json_loads json_dumps str_other tool_call self
      = (Raise (PyException "TypeError"
                  (function_str t
                   ++ " argument after ** must be a mapping, not "
                   ++ type_name args)),
         self)).
Proof.
  intros F N A R J.
  pose proof (handle_tool_call_descriptor json_loads json_dumps str_other
                tool_call function_data (PStr name) text self F) as H.
  rewrite N in H. specialize (H eq_refl A).
  unfold decoded_arguments in H. rewrite J in H. simpl in H. rewrite R in H.
  repeat apply conj.
  - intros d result -> V. simpl in H. now rewrite V in H.
  - intros d e -> V. simpl in H. now rewrite V in H.
  - intros O. destruct args; try discriminate; exact H.
Qed.

Lemma found_tool_gets_the_decoded_arguments_witness :
  handle_tool_call Codec.loads Codec.dumps Codec.str
    (Examples.descriptor "Add" (Examples.jq "{'b': 40, 'a': 2}"))
    Examples.tool_agent
  = (Return (PInt 42),
     set_tool_call_logs
       [tool_call_record "joke_agent" (PStr "Add")
          (Examples.jq "{'b': 40, 'a': 2}") (PInt 42)]
       Examples.tool_agent).
Proof.
  destruct (found_tool_gets_the_decoded_arguments
              Codec.loads Codec.dumps Codec.str
              (Examples.descriptor "Add" (Examples.jq "{'b': 40, 'a': 2}"))
              [("name", PStr "Add");
               ("arguments", PStr (Examples.jq "{'b': 40, 'a': 2}"))]
              "Add" (Examples.jq "{'b': 40, 'a': 2}") Examples.add_tool
              (PDict [("b", PInt 40); ("a", PInt 2)]) Examples.tool_agent
              eq_refl eq_refl eq_refl eq_refl eq_refl) as [H _].
  exact (H [("b", PInt 40); ("a", PInt 2)] (PInt 42) eq_refl eq_refl).
Defined.

(** X14. A descriptor without a [function] entry, or whose function data
    has no [name], is dispatched under the name [None]: unless the registry
    resolves [None], the call returns the placeholder that holds
    [str(None)] and logs a record whose destination is [None].  A
    [function] entry that is not an object makes the call raise
    [AttributeError], with nothing logged. *)
Theorem descriptor_without_a_name
    (json_loads : string -> option pyval) (json_dumps : pyval -> string)
    (str_other : pyval -> string) (tool_call : dict) (self : RemoteAgent) :
  resolve self PNone = None ->
  (dict_get tool_call "function" = None
   \/ (exists function_data,
         dict_get tool_call "function" = Some (PDict function_data)
         /\ dict_get function_data "name" = None
         /\ dict_get function_data "arguments" = None) ->
   handle_tool_call json_loads json_dumps str_other tool_call self
   = (Return (PStr ("[Tool '" ++ str_other PNone ++ "' not found]")),
      set_tool_call_logs
        (tool_call_logs self
         ++ [tool_call_record (agent_name self) PNone
               (json_dumps (decoded_arguments json_loads "{}"))
               (PStr ("[Tool '" ++ str_other PNone ++ "' not found]"))])
        self))
  /\ (forall v,
        dict_get tool_call "function" = Some v -> is_object v = false ->
        handle_tool_call json_loads json_dumps str_other tool_call self
        = (Raise (PyException "AttributeError"
                    ("'" ++ type_name v
                     ++ "' object has no attribute 'get'")),
           self)).
Proof.
  intros R. split.
  - intros [F|[fd [F [N A]]]].
    + unfold handle_tool_call, bind, lift, get_state. rewrite F. simpl.
      unfold resolve in R. rewrite R. reflexivity.
    + rewrite (handle_tool_call_descriptor json_loads json_dumps str_other
                 tool_call fd PNone "{}" self F).
      * simpl. rewrite R. reflexivity.
      * now rewrite N.
      * unfold arguments_text. now rewrite A.
  - intros v F O.
    unfold handle_tool_call, bind, lift, get_state. rewrite F.
    destruct v; try discriminate; reflexivity.
Qed.

Lemma descriptor_without_a_name_witness :
  handle_tool_call Codec.loads Codec.dumps Codec.str
    [("id", PStr "call_1")] Examples.tool_agent
  = (Return (PStr "[Tool 'None' not found]"),
     set_tool_call_logs
       [tool_call_record "joke_agent" PNone "{}"
          (PStr "[Tool 'None' not found]")]
       Examples.tool_agent).
Proof.
  destruct (descriptor_without_a_name Codec.loads Codec.dumps Codec.str
              [("id", PStr "call_1")] Examples.tool_agent eq_refl) as [H _].
  exact (H (or_introl eq_refl)).
Defined.

(** ** The caller's drain of the call log *)

Lemma str_of_Z_inj (i j : Z) : str_of_Z i = str_of_Z j -> i = j.
Proof.
  unfold str_of_Z. intros H.
  assert (NN : forall z, Z.to_int z <> Decimal.Pos Decimal.Nil
                         /\ Z.to_int z <> Decimal.Neg Decimal.Nil).
  { intros [|p|p]; unfold Z.to_int; split; intros E;
      try discriminate E; injection E as E;
      now apply (DecimalPos.Unsigned.to_uint_nonnil p). }
  apply DecimalZ.to_int_inj.
  apply (f_equal NilZero.int_of_string) in H.
  rewrite !NilZero.isi in H by apply NN.
  now injection H.
Qed.

Lemma tool_call_key_inj (i j : Z) : tool_call_key i = tool_call_key j -> i = j.
Proof.
  unfold tool_call_key. intros H.
  change ("ToolCall" ++ str_of_Z i) with
    (String "T" (String "o" (String "o" (String "l" (String "C" (String "a"
      (String "l" (String "l" (str_of_Z i))))))))) in H.
  change ("ToolCall" ++ str_of_Z j) with
    (String "T" (String "o" (String "o" (String "l" (String "C" (String "a"
      (String "l" (String "l" (str_of_Z j))))))))) in H.
  injection H as H. now apply str_of_Z_inj.
Qed.

Lemma dict_set_fresh (d : dict) (k : string) (v : pyval) :
  dict_get d k = None -> dict_set d k v = (d ++ [(k, v)])%list.
Proof.
  induction d as [|[k0 v0] d IH]; simpl; [reflexivity|].
  destruct (k0 =? k)%string; [discriminate|].
  intros H. now rewrite (IH H).
Qed.

Lemma number_tool_calls_fresh (logs : list pyval) :
  forall acc idx,
    (forall j, (idx <= j)%Z -> dict_get acc (tool_call_key j) = None) ->
    number_tool_calls logs acc idx
    = ((acc ++ combine (tool_call_keys idx (List.length logs)) logs)%list,
       (idx + Z.of_nat (List.length logs))%Z).
Proof.
  induction logs as [|call logs IH]; intros acc idx Fresh.
  - simpl. now rewrite app_nil_r, Z.add_0_r.
  - cbn [number_tool_calls List.length tool_call_keys combine].
    fold (tool_call_key idx).
    rewrite IH.
    + rewrite (dict_set_fresh acc _ call (Fresh idx (Z.le_refl idx))).
      rewrite <- app_assoc. simpl. f_equal. lia.
    + intros j Hj. rewrite dict_get_set.
      destruct (tool_call_key idx =? tool_call_key j)%string eqn:E.
      * apply String.eqb_eq, tool_call_key_inj in E. lia.
      * apply Fresh. lia.
Qed.

Lemma tool_call_keys_nth (count : nat) :
  forall first i,
    (i < count)%nat ->
    nth_error (tool_call_keys first count) i
    = Some (tool_call_key (first + Z.of_nat i)).
Proof.
  induction count as [|count IH]; intros first i Hi; [lia|].
  destruct i as [|i]; cbn [tool_call_keys nth_error].
  - do 2 f_equal. lia.
  - rewrite IH by lia. do 2 f_equal. lia.
Qed.

Lemma tool_call_keys_length (count : nat) :
  forall first, List.length (tool_call_keys first count) = count.
Proof.
  induction count as [|count IH]; intros first; cbn [tool_call_keys length];
    [reflexivity|]. now rewrite IH.
Qed.

Lemma tool_call_keys_bound (count : nat) :
  forall first k,
    In k (tool_call_keys first count) ->
    exists j, (first <= j < first + Z.of_nat count)%Z /\ k = tool_call_key j.
Proof.
  induction count as [|count IH]; intros first k; cbn [tool_call_keys In];
    [tauto|].
  intros [<-|H].
  - exists first. split; [lia|reflexivity].
  - apply IH in H as [j [Hj ->]]. exists j. split; [lia|reflexivity].
Qed.

Lemma tool_call_keys_nodup (count : nat) :
  forall first, NoDup (tool_call_keys first count).
Proof.
  induction count as [|count IH]; intros first; cbn [tool_call_keys];
    constructor.
  - intros H. apply tool_call_keys_bound in H as [j [Hj E]].
    apply tool_call_key_inj in E. lia.
  - apply IH.
Qed.

Lemma dict_get_combine_absent (keys : list string) :
  forall (values : list pyval) k,
    ~ In k keys -> dict_get (combine keys values) k = None.
Proof.
  induction keys as [|k0 keys IH]; intros values k NI; [reflexivity|].
  destruct values as [|v0 values]; [reflexivity|].
  cbn [combine dict_get].
  destruct (k0 =? k)%string eqn:E.
  - apply String.eqb_eq in E. subst k0. destruct NI. now left.
  - apply IH. intros H. apply NI. now right.
Qed.

Lemma dict_get_combine (keys : list string) :
  forall (values : list pyval) i k v,
    NoDup keys ->
    nth_error keys i = Some k ->
    nth_error values i = Some v ->
    dict_get (combine keys values) k = Some v.
Proof.
  induction keys as [|k0 keys IH]; intros values i k v U K V.
  - destruct i; discriminate.
  - destruct values as [|v0 values]; [destruct i; discriminate|].
    inversion U as [|x l NI U']; subst.
    cbn [combine dict_get].
    destruct i as [|i]; cbn [nth_error] in K, V.
    + inversion K; inversion V; subst. now rewrite String.eqb_refl.
    + destruct (k0 =? k)%string eqn:E.
      * apply String.eqb_eq in E. subst k0.
        apply nth_error_In in K. contradiction.
      * now apply (IH values i).
Qed.

(** The keys and the entries, with one more of each at the end. *)
Lemma combine_keys_snoc (final : pyval) (count : nat) :
  forall first (entries : list pyval),
    List.length entries = count ->
    (combine (tool_call_keys first count) entries
     ++ [(tool_call_key (first + Z.of_nat count), final)])%list
    = combine (tool_call_keys first (S count)) (entries ++ [final]).
Proof.
  induction count as [|count IH]; intros first entries L.
  - destruct entries; [|discriminate].
    cbn [tool_call_keys combine app Z.of_nat]. now rewrite Z.add_0_r.
  - destruct entries as [|x entries]; [discriminate|].
    replace (first + Z.of_nat (S count))%Z
      with (first + 1 + Z.of_nat count)%Z by lia.
    change ((tool_call_key first, x)
            :: (combine (tool_call_keys (first + 1) count) entries
                ++ [(tool_call_key (first + 1 + Z.of_nat count), final)])
            = (tool_call_key first, x)
              :: combine (tool_call_keys (first + 1) (S count))
                   (entries ++ [final]))%list.
    f_equal. apply IH. cbn [length] in L. lia.
Qed.

(** X15. Draining the call log in [main] keeps every entry and its order:
    the entries get the keys [ToolCall1], [ToolCall2], ... in the order
    they were logged, the call of the caller's own gets the next number,
    the keys are all different so no entry overwrites another, and the
    buffer of the agent is empty afterwards.  An agent without a buffer
    contributes [ToolCall1] alone. *)
Theorem drain_numbers_the_calls (logs : list pyval) (final : pyval) :
  drain_tool_calls (Some logs) final
  = (combine (tool_call_keys 1 (S (List.length logs))) (logs ++ [final]),
     Some [])
  /\ NoDup (tool_call_keys 1 (S (List.length logs)))
  /\ (forall i call,
        nth_error logs i = Some call ->
        dict_get (fst (drain_tool_calls (Some logs) final))
          (tool_call_key (Z.of_nat i + 1))
        = Some call)
  /\ dict_get (fst (drain_tool_calls (Some logs) final))
       (tool_call_key (Z.of_nat (List.length logs) + 1))
     = Some final
  /\ List.length (fst (drain_tool_calls (Some logs) final))
     = S (List.length logs)
  /\ drain_tool_calls None final = ([("ToolCall1", final)], None).
Proof.
  assert (E : drain_tool_calls (Some logs) final
              = (combine (tool_call_keys 1 (S (List.length logs)))
                   (logs ++ [final]),
                 Some [])).
  { unfold drain_tool_calls.
    rewrite number_tool_calls_fresh by reflexivity.
    fold (tool_call_key (1 + Z.of_nat (List.length logs))).
    change ([] ++ combine (tool_call_keys 1 (List.length logs)) logs)%list
      with (combine (tool_call_keys 1 (List.length logs)) logs).
    rewrite dict_set_fresh.
    - f_equal. now apply combine_keys_snoc.
    - apply dict_get_combine_absent. intros H.
      apply tool_call_keys_bound in H as [j [Hj Ej]].
      apply tool_call_key_inj in Ej. lia. }
  pose proof (tool_call_keys_nodup (S (List.length logs)) 1) as U.
  repeat apply conj.
  - exact E.
  - exact U.
  - intros i call Hi. rewrite E. cbn [fst].
    assert (Li : (i < List.length logs)%nat)
      by (apply nth_error_Some; congruence).
    apply (dict_get_combine _ (logs ++ [final]) i); [exact U| |].
    + rewrite tool_call_keys_nth by lia. do 2 f_equal. lia.
    + now rewrite nth_error_app1.
  - rewrite E. cbn [fst].
    apply (dict_get_combine _ (logs ++ [final]) (List.length logs));
      [exact U| |].
    + rewrite tool_call_keys_nth by lia. do 2 f_equal. lia.
    + rewrite nth_error_app2 by lia. now rewrite Nat.sub_diag.
  - rewrite E. cbn [fst].
    rewrite length_combine, length_app, tool_call_keys_length.
    cbn [length]. lia.
  - reflexivity.
Qed.

Lemma drain_numbers_the_calls_witness :
  let logs :=
    tool_call_logs
      (snd (handle_message (Examples.answers Examples.store_reply)
              "hello" [] Examples.joke_agent)) in
  drain_tool_calls (Some logs) (PStr "own call")
  = ([("ToolCall1",
       PDict [("function",
               PDict [("name", PStr "Store"); ("arguments", PStr "{}")])]);
      ("ToolCall2", PStr "own call")],
     Some []).
Proof.
  intros logs.
  destruct (drain_numbers_the_calls logs (PStr "own call")) as [H _].
  exact H.
Defined.

(** ** The visualizer *)

Lemma escape_leaves_no_bare_quote (text : string) :
  forall after_backslash,
    no_bare_quote after_backslash
      (replace_char (ascii_of_N 34) (String (ascii_of_N 92) dquote) text)
    = true.
Proof.
  induction text as [|a text IH]; intros b; [reflexivity|].
  cbn [replace_char].
  destruct (Ascii.eqb a (ascii_of_N 34)) eqn:E.
  - change (no_bare_quote false
              (replace_char (ascii_of_N 34) (String (ascii_of_N 92) dquote)
                 text) = true).
    apply IH.
  - cbn [no_bare_quote]. rewrite E. apply IH.
Qed.

(** X16. [escape_quotes] never leaves a double quote without a backslash
    right before it.  It adds one character for each double quote of the
    text and nothing else, so a text without double quotes comes back as it
    is; [None] gives the empty string. *)
Theorem escape_quotes_leaves_no_bare_quote :
  escape_quotes None = EmptyString
  /\ (forall text, no_bare_quote false (escape_quotes (Some text)) = true)
  /\ (forall text,
        String.length (escape_quotes (Some text))
        = (String.length text + count_quotes text)%nat)
  /\ (forall text,
        count_quotes text = O -> escape_quotes (Some text) = text).
Proof.
  split; [reflexivity|]. split; [|split].
  - intros text. apply escape_leaves_no_bare_quote.
  - intros text. unfold escape_quotes.
    induction text as [|a text IH]; [reflexivity|].
    cbn [replace_char count_quotes String.length].
    destruct (Ascii.eqb a (ascii_of_N 34)).
    + change (S (S (String.length
                      (replace_char (ascii_of_N 34)
                         (String (ascii_of_N 92) dquote) text)))
              = (S (String.length text) + S (count_quotes text))%nat).
      rewrite IH. lia.
    + cbn [String.length]. rewrite IH. lia.
  - intros text. unfold escape_quotes.
    induction text as [|a text IH]; [reflexivity|].
    cbn [replace_char count_quotes].
    destruct (Ascii.eqb a (ascii_of_N 34)); [discriminate|].
    intros C. now rewrite (IH C).
Qed.

Lemma escape_quotes_leaves_no_bare_quote_witness :
  escape_quotes (Some "User > Orchestrator , Message Passed: hello")
  = "User > Orchestrator , Message Passed: hello".
Proof.
  destruct escape_quotes_leaves_no_bare_quote as [_ [_ [_ H]]].
  exact (H "User > Orchestrator , Message Passed: hello" eq_refl).
Defined.

Section Drawing.

Variable str_other : pyval -> string.



End Drawing.



(** X18. A logged entry that has none of the four fields of a record, as
    the entries [handle_message] logs from the wire format have none, is
    drawn as a call from [unknown] to the tool [unknown] and back, with
    empty arguments and response. *)
Theorem entry_without_fields_is_drawn_unknown
    (str_other : pyval -> string) (d : dict) (dot_lines : list string)
    (arrow_counter : Z) :
  dict_get d "Tool_call_source" = None ->
  dict_get d "Tool_call_Destination" = None ->
  dict_get d "Tool_call_Arguments" = None ->
  dict_get d "Tool_call_Response" = None ->
  draw_tool_call str_other (PDict d) dot_lines arrow_counter
  = Return
      ((dot_lines
        ++ [("    unknown -> " ++ dquote ++ "unknown" ++ dquote
             ++ " [label=" ++ dquote ++ str_of_Z arrow_counter ++ dquote
             ++ ", tooltip=" ++ dquote
             ++ "unknown > unknown , Message Passed: " ++ dquote
             ++ "];")%string;
            ("    " ++ dquote ++ "unknown" ++ dquote ++ " -> unknown"
             ++ " [label=" ++ dquote ++ str_of_Z (arrow_counter + 1) ++ dquote
             ++ ", tooltip=" ++ dquote
             ++ "unknown > unknown , Message Passed: " ++ dquote
             ++ "];")%string])%list,
       (arrow_counter + 2)%Z).
Proof.
  intros S D A R.
  unfold draw_tool_call, py_get. rewrite S, D, A, R.
  rewrite <- app_assoc.
  replace (arrow_counter + 1 + 1)%Z with (arrow_counter + 2)%Z by lia.
  reflexivity.
Qed.

Lemma entry_without_fields_is_drawn_unknown_witness :
  let entry :=
    [("function", PDict [("name", PStr "Store"); ("arguments", PStr "{}")])] in
  tool_call_logs
    (snd (handle_message (Examples.answers Examples.store_reply)
            "hello" [] Examples.joke_agent))
  = [PDict entry]
  /\ exists arrow arrow_back,
       draw_tool_call Codec.str (PDict entry) [] 3
       = Return ([arrow; arrow_back], 5%Z)
       /\ startswith "    unknown -> " arrow = true.
Proof.
  intros entry. split; [reflexivity|].
  do 2 eexists. split.
  - exact (entry_without_fields_is_drawn_unknown Codec.str entry [] 3
             eq_refl eq_refl eq_refl eq_refl).
  - reflexivity.
Defined.
